(** * Solana volume SDK: a shallow embedding of the [AMM] facade

    The development follows the source file of class [AMM], the helpers
    it imports from [./common] (bundle and transaction helpers) and the
    tables of [src/constants.ts]. Line numbers in the comments are those
    of the [AMM] source file.

    Conventions of the embedding:
    - a JavaScript [number] holding a count, a tip or a timestamp is a [Z];
      a [number] holding SOL amounts or a [Math.random()] draw is an exact
      rational [Q] (rounding of IEEE doubles is not modelled);
    - a thrown [Error] is the [Throw] case of [Result]; a [try]/[catch] is
      [try_catch]; state written before a throw stays written;
    - everything the outside world answers during one pass through a
      workflow body ([Math.random()], [Date.now()], [Keypair.generate()],
      chain RPC, aggregator and relay replies) is a field of [World];
    - the effects a workflow performs are recorded, in order, in a trace. *)

From Stdlib Require Import ZArith QArith Qround Lqa Lia Bool String Ascii List.
Import ListNotations.

Set Implicit Arguments.

(* ------------------------------------------------------------------ *)
(** * Errors, results and the workflow monad *)

Inductive JsError : Type := Error (message : string).

Definition message_of (e : JsError) : string := let 'Error m := e in m.

Inductive Result (A : Type) : Type :=
| Ok (a : A)
| Throw (e : JsError).

Arguments Ok {A} a.
Arguments Throw {A} e.

Definition is_ok {A} (r : Result A) : bool :=
  match r with Ok _ => true | Throw _ => false end.

(** A computation over a mutable state [S] that may throw. *)
Definition M (S A : Type) : Type := S -> Result A * S.

Definition ret {S A} (a : A) : M S A := fun s => (Ok a, s).

Definition bind {S A B} (m : M S A) (k : A -> M S B) : M S B :=
  fun s => match m s with
           | (Ok a, s') => k a s'
           | (Throw e, s') => (Throw e, s')
           end.

Definition throw {S A} (e : JsError) : M S A := fun s => (Throw e, s).

Definition lift {S A} (r : Result A) : M S A := fun s => (r, s).

Definition get {S} : M S S := fun s => (Ok s, s).

Definition modify {S} (f : S -> S) : M S unit := fun s => (Ok tt, f s).

Definition try_catch {S A} (body : M S A) (handler : JsError -> M S A) : M S A :=
  fun s => match body s with
           | (Ok a, s') => (Ok a, s')
           | (Throw e, s') => handler e s'
           end.

Declare Scope js_scope.
Delimit Scope js_scope with js.
Notation "x <- c1 ;; c2" := (bind c1 (fun x => c2))
  (at level 61, c1 at next level, right associativity) : js_scope.
Notation "c1 ;; c2" := (bind c1 (fun _ => c2))
  (at level 61, right associativity) : js_scope.

(** [for ... of] over a list of computations, results kept in order.
    [Promise.all] over the four maker swaps is modelled by it: the four
    requests are taken in list order and the first failure is the one
    reported. *)
Fixpoint sequence {S A} (ms : list (M S A)) : M S (list A) :=
  match ms with
  | [] => ret []
  | m :: rest =>
      (a <- m ;; l <- sequence rest ;; ret (a :: l))%js
  end.

(** JavaScript truthiness of an optional string field. *)
Definition truthy (s : option string) : bool :=
  match s with
  | Some v => negb (String.eqb v EmptyString)
  | None => false
  end.

(** [a || b] on an optional string. *)
Definition or_else (s : option string) (dflt : string) : string :=
  match s with
  | Some v => if String.eqb v EmptyString then dflt else v
  | None => dflt
  end.

(** [a < b] on rationals, as a boolean. *)
Definition Qltb (a b : Q) : bool := negb (Qle_bool b a).

(** A [Math.random()] draw lies in [0, 1). *)
Definition unit_draw (r : Q) : Prop := (0 <= r /\ r < 1)%Q.

(** [Math.floor(Math.random() * n)] *)
Definition random_index (r : Q) (n : nat) : Z :=
  Qfloor (r * inject_Z (Z.of_nat n)).

(** [arr[i]] for an index computed by [Math.floor]: [undefined] is [None]. *)
Definition js_index {A} (l : list A) (i : Z) : option A :=
  if (i <? 0)%Z then None else nth_error l (Z.to_nat i).


(* ------------------------------------------------------------------ *)
(** * Constants ([src/constants.ts]) *)

Local Open Scope string_scope.

(** A public key is kept as its base58 text. *)
Definition PublicKey : Type := string.

Definition JITO_ACCOUNTS : list PublicKey :=
  [ "96gYZGLnJYVFmbjzopPSU6QiEV5fGqZNyN9nmNhvrZU5";
    "HFqU5x63VTqvQss8hp11i4wVV8bD44PvwucfZ2bU7gRe";
    "Cw8CFyM9FkoMi7K7Crf6HNQqf4uEMzpKw6QNghXLvLkY";
    "ADaUMid9yfUytqMBgopwjb2DTLSokTSzL1zt6iGPaS49";
    "DfXygSm4jCyNCybVYYK6DwvWqjKee8pbDmJGcLWNDXjh";
    "ADuUkR4vqLUMWXxW9gh6D6L8pMSawimctcNZ5pGwDcEt";
    "DttWaMuVvTiduZRnguLF7jNxTgiMBZ1hyAumKUiL2KRL";
    "3AVi9Tg9Uo68tJfuvoKvqKNWKkC5wPdSSdeBnizKZ6jT" ].

Definition JITO_URLS : list string :=
  [ "https://amsterdam.mainnet.block-engine.jito.wtf/api/v1/bundles";
    "https://frankfurt.mainnet.block-engine.jito.wtf/api/v1/bundles";
    "https://ny.mainnet.block-engine.jito.wtf/api/v1/bundles";
    "https://tokyo.mainnet.block-engine.jito.wtf/api/v1/bundles";
    "https://slc.mainnet.block-engine.jito.wtf/api/v1/bundles" ].

Definition FEE_ACCOUNT_1 : PublicKey := "BsJVUnreMP9x3hieTGNvfFkgtGWMT5dL2tkNeerY2x6X".
Definition FEE_ACCOUNT_2 : PublicKey := "HkwQG47SYLprat3A2a7zm2PhA4EiqXe4BRGeZFuBJLGB".
Definition WSOL_MINT : PublicKey := "So11111111111111111111111111111111111111112".
Definition AMM_PROGRAM_ID : PublicKey := "ammm1g4BXHiRCo3XtUxdTxm4jm5tzqSV6nMK1K52H6W".

(** [SystemProgram.programId] of the web3 library. *)
Definition SystemProgram_programId : PublicKey := "11111111111111111111111111111111".

(* ------------------------------------------------------------------ *)
(** * Transactions *)

Record Keypair : Type := { publicKey : PublicKey }.

Record AccountMeta : Type :=
  { pubkey : PublicKey; isSigner : bool; isWritable : bool }.

(** A byte is a [Z] in [0, 256). *)
Definition Buffer : Type := list Z.

Record TransactionInstruction : Type :=
  { programId : PublicKey; keys : list AccountMeta; data : Buffer }.

(** The two compute-budget instructions are built by the web3 library;
    they are kept by their arguments. *)
Inductive Instruction : Type :=
| SetComputeUnitPrice (microLamports : Z)
| SetComputeUnitLimit (units : Z)
| Custom (ix : TransactionInstruction).

Record VersionedTransaction : Type :=
  { payerKey : PublicKey;
    instructions : list Instruction;
    recentBlockhash : string;
    signatures : list PublicKey }.

(** The custom instructions of a transaction, in order. *)
Fixpoint custom_instructions (ixs : list Instruction) : list TransactionInstruction :=
  match ixs with
  | [] => []
  | Custom ix :: rest => ix :: custom_instructions rest
  | _ :: rest => custom_instructions rest
  end.

(** ** Buffers and big numbers *)

Module Buf.

(** [Buffer.alloc(n)] *)
Definition alloc (n : nat) : Buffer := repeat 0%Z n.

(** [buf[i] = v] on an index inside the buffer (outside it a [Buffer]
    ignores the write). *)
Fixpoint set (buf : Buffer) (i : nat) (v : Z) : Buffer :=
  match buf, i with
  | [], _ => []
  | _ :: rest, O => (v mod 256)%Z :: rest
  | b :: rest, S j => b :: set rest j v
  end.

(** [src.copy(target, targetStart)]: bytes of [src] overwrite [target]
    from [targetStart] on, as many as fit. *)
Fixpoint copy (src target : Buffer) (targetStart : nat) : Buffer :=
  match target, targetStart with
  | [], _ => []
  | t :: rest, S j => t :: copy src rest j
  | t :: rest, O =>
      match src with
      | [] => t :: rest
      | b :: src' => b :: copy src' rest O
      end
  end.


End Buf.

Module BN.

(** The [len] low bytes of [n], least significant first. *)
Fixpoint le_bytes (len : nat) (n : Z) : Buffer :=
  match len with
  | O => []
  | S k => Z.land n 255 :: le_bytes k (Z.shiftr n 8)
  end.

(** [new BN(n).toArrayLike(Buffer, "le", len)] for an integer [n]. The
    big-number library is not part of the repository; it is taken by its
    contract on integers: the magnitude of [n] in [len] little-endian
    bytes, refused when it needs more than [len] bytes. How the library
    reads a JavaScript [number] beyond 2^53 is not modelled. *)
Definition toArrayLike_le (n : Z) (len : nat) : Result Buffer :=
  if (Z.abs n <? 2 ^ (8 * Z.of_nat len))%Z
  then Ok (le_bytes len (Z.abs n))
  else Throw (Error "byte array longer than desired length").

End BN.

(* ------------------------------------------------------------------ *)
(** * Bundle and transaction helpers ([./common]) *)

(** [getRandomJitoAccount], on the [Math.random()] draw [r]. *)
Definition getRandomJitoAccount (r : Q) : option PublicKey :=
  js_index JITO_ACCOUNTS (random_index r (length JITO_ACCOUNTS)).

(** [getRandomJitoUrl], on the [Math.random()] draw [r]. *)
Definition getRandomJitoUrl (r : Q) : option string :=
  js_index JITO_URLS (random_index r (length JITO_URLS)).

Definition createVtxWithOnlyMainSigner
    (ixs : list Instruction) (wallet : Keypair) (blockhash : string)
  : Result VersionedTransaction :=
  if String.eqb blockhash ""
  then Throw (Error "Invalid blockhash provided to createVtxWithOnlyMainSigner")
  else Ok {| payerKey := publicKey wallet;
             instructions := ixs;
             recentBlockhash := blockhash;
             signatures := [publicKey wallet] |}.

(* ------------------------------------------------------------------ *)
(** * The [AMM] object *)

Inductive Direction : Type := buy | sell.

Definition Direction_eqb (a b : Direction) : bool :=
  match a, b with
  | buy, buy | sell, sell => true
  | _, _ => false
  end.

(** The fields of [this]. [jupiterCache] is initialised by the
    constructor and never read again; only its timestamp is kept. *)
Record AMM : Type :=
  { payer : Keypair;
    jupiterCache_lastUpdateTime : Z;
    disableLogs : bool;
    balance : Q;
    blockhash : string;
    lastBlockhashRefresh : Z }.

Definition set_blockhash (this : AMM) (bh : string) (at_ : Z) : AMM :=
  {| payer := payer this;
     jupiterCache_lastUpdateTime := jupiterCache_lastUpdateTime this;
     disableLogs := disableLogs this;
     balance := balance this;
     blockhash := bh;
     lastBlockhashRefresh := at_ |}.

(** [getComputeBudgetInstructions] *)
Definition getComputeBudgetInstructions : list Instruction :=
  let unitPrice := ((10000 * 1000000) / 600000)%Z in
  [SetComputeUnitPrice unitPrice; SetComputeUnitLimit 600000].

(** The nine-byte payload: [Buffer.alloc(9)], the command identifier at
    index 0, the tip copied in at index 1. *)
Definition instructionData (command : Z) (jitoTipLamports : Z) : Result Buffer :=
  match BN.toArrayLike_le jitoTipLamports 8 with
  | Throw e => Throw e
  | Ok tipBytes => Ok (Buf.copy tipBytes (Buf.set (Buf.alloc 9) 0 command) 1)
  end.

Definition writable (k : PublicKey) : AccountMeta :=
  {| pubkey := k; isSigner := false; isWritable := true |}.

(** [createFundTx]: funds four accounts. [pubkeys[i]] past the end of the
    array is [undefined], whose [.publicKey] is a [TypeError]; an
    [undefined] tip account makes the message compilation throw. *)
Definition createFundTx (this : AMM) (jitoDraw : Q)
    (pubkeys : list Keypair) (jitoTipLamports : Z) (blockhash : string)
  : Result VersionedTransaction :=
  match getRandomJitoAccount jitoDraw, pubkeys with
  | Some selectedJitoAccount, k0 :: k1 :: k2 :: k3 :: _ =>
      let accounts :=
        [ {| pubkey := publicKey (payer this); isSigner := true; isWritable := true |};
          writable (publicKey k0);
          writable (publicKey k1);
          writable (publicKey k2);
          writable (publicKey k3);
          writable selectedJitoAccount;
          writable FEE_ACCOUNT_1;
          writable FEE_ACCOUNT_2;
          {| pubkey := SystemProgram_programId; isSigner := false; isWritable := false |} ] in
      match instructionData 0 jitoTipLamports with
      | Throw e => Throw e
      | Ok payload =>
          let createFundTxIx :=
            {| programId := AMM_PROGRAM_ID; keys := accounts; data := payload |} in
          createVtxWithOnlyMainSigner
            (getComputeBudgetInstructions ++ [Custom createFundTxIx])
            (payer this) blockhash
      end
  | _, _ => Throw (Error "TypeError: Cannot read properties of undefined")
  end.

(** [createFundSingleTx]: funds one account. *)
Definition createFundSingleTx (this : AMM) (jitoDraw : Q)
    (pubkey_ : Keypair) (jitoTipLamports : Z) (blockhash : string)
  : Result VersionedTransaction :=
  match getRandomJitoAccount jitoDraw with
  | Some selectedJitoAccount =>
      let accounts :=
        [ {| pubkey := publicKey (payer this); isSigner := true; isWritable := true |};
          writable (publicKey pubkey_);
          writable selectedJitoAccount;
          writable FEE_ACCOUNT_1;
          writable FEE_ACCOUNT_2;
          {| pubkey := SystemProgram_programId; isSigner := false; isWritable := false |} ] in
      match instructionData 3 jitoTipLamports with
      | Throw e => Throw e
      | Ok payload =>
          let createFundTxIx :=
            {| programId := AMM_PROGRAM_ID; keys := accounts; data := payload |} in
          createVtxWithOnlyMainSigner
            (getComputeBudgetInstructions ++ [Custom createFundTxIx])
            (payer this) blockhash
      end
  | None => Throw (Error "TypeError: Cannot read properties of undefined")
  end.

(* ------------------------------------------------------------------ *)
(** * The outside world *)

Definition Route : Type := string.

(** The aggregator's quote reply; [quote_data] is its [data] field. *)
Record QuoteResponse : Type := { quote_data : option (list Route) }.

(** The aggregator's swap reply; the base64 text of [swapTransaction] is
    kept as the transaction it deserialises to. *)
Record SwapResponse : Type := { swapTransaction : option VersionedTransaction }.

(** The relay's JSON reply. *)
Record RelayResponse : Type :=
  { result : option string; error : option string }.

(** [balanceInfo.value] of a token-account balance reply. *)
Record TokenAmount : Type := { amount : Z; decimals : nat }.

(** What the world answers during one pass through a workflow body. *)
Record World : Type :=
  { (* Math.random(), one field per call site *)
    random_sellTrigger : Q;
    random_sellFraction : Q;
    random_nextSell : Q;
    random_buyAmount : Q;
    random_jitoAccount : Q;
    random_jitoUrl : Q;
    random_delay : Q;
    (* Date.now() *)
    now_check : Z;
    now_refresh : Z;
    now_log : Z;
    (* Keypair.generate(), by call number *)
    fresh_keypair : nat -> Keypair;
    (* chain RPC *)
    rpc_latestBlockhash : Result string;
    rpc_balance : Result Z;
    rpc_tokenBalance : Result (option TokenAmount);
    derive_ata : PublicKey -> PublicKey -> Result PublicKey;
    (* aggregator, by call number *)
    agg_quote : nat -> Result QuoteResponse;
    agg_swap : nat -> Result SwapResponse;
    (* relay; [None] is a JSON [null] *)
    relay_response : Result (option RelayResponse) }.

Inductive SwapMode : Type := ExactIn | ExactOut.

Record QuoteRequest : Type :=
  { inputMint : PublicKey;
    outputMint : PublicKey;
    quote_amount : Q;
    swapMode : SwapMode;
    quote_dexes : string }.

Inductive LogLine : Type :=
| LogText (text : string)
| LogError (context : string) (e : JsError)
| LogBundle (bundleCount makersCompleted totalMakersRequired : Z) (solBalance : Q)
| LogTrade (tradeCount : Z) (direction : Direction)
           (solAmount netVolume solBalance : Q) (runTimeMs : Z)
| LogSwap (bundleId : string).

Inductive Event : Type :=
| GetLatestBlockhash
| GetBalance (owner : PublicKey)
| GetTokenAccountBalance (ata : PublicKey)
| FetchQuote (req : QuoteRequest)
| FetchSwap (route : Route) (userPublicKey : PublicKey)
| SendBundle (bundled : list VersionedTransaction) (url : string)
| Log (line : LogLine)
| Wait (ms : Q).

(** The state a workflow runs on: the object, the workflow's local
    variables, and the effects performed so far. *)
Record Ctx (L : Type) : Type :=
  { this : AMM; locals : L; trace : list Event }.

Section Primitives.

Context {L : Type}.

Definition emit (e : Event) : M (Ctx L) unit :=
  modify (fun c => {| this := this c; locals := locals c; trace := trace c ++ [e] |}).

Definition set_this (f : AMM -> AMM) : M (Ctx L) unit :=
  modify (fun c => {| this := f (this c); locals := locals c; trace := trace c |}).

Definition set_locals (f : L -> L) : M (Ctx L) unit :=
  modify (fun c => {| this := this c; locals := f (locals c); trace := trace c |}).

(** [this.log(...)] *)
Definition log (line : LogLine) : M (Ctx L) unit :=
  (c <- get ;;
   if disableLogs (this c) then ret tt else emit (Log line))%js.

(** [this.wait(ms)] *)
Definition wait (ms : Q) : M (Ctx L) unit := emit (Wait ms).

(** [(await this.connection.getLatestBlockhash("finalized")).blockhash] *)
Definition getLatestBlockhash (w : World) : M (Ctx L) string :=
  (emit GetLatestBlockhash ;; lift (rpc_latestBlockhash w))%js.

(** [initializeBlockhash] *)
Definition initializeBlockhash (w : World) : M (Ctx L) unit :=
  (bh <- getLatestBlockhash w ;;
   set_this (fun a => set_blockhash a bh 0))%js.

(** [sendBundle(bundled, url)]; [fetch] of an [undefined] url rejects. *)
Definition sendBundle (w : World) (bundled : list VersionedTransaction)
    (url : option string) : M (Ctx L) (option RelayResponse) :=
  match url with
  | None => throw (Error "TypeError: Only absolute URLs are supported")
  | Some u => (emit (SendBundle bundled u) ;; lift (relay_response w))%js
  end.

(** [bundleResponse && bundleResponse.result] *)
Definition bundle_result (r : option RelayResponse) : option string :=
  match r with
  | Some resp => if truthy (result resp) then result resp else None
  | None => None
  end.

(** [getSolBalance] *)
Definition getSolBalance (w : World) : M (Ctx L) Q :=
  try_catch
    (c <- get ;;
     emit (GetBalance (publicKey (payer (this c)))) ;;
     lamports <- lift (rpc_balance w) ;;
     ret (inject_Z lamports / 1e9)%Q)%js
    (fun e =>
       log (LogError "Error getting SOL balance:" e) ;;
       ret 0%Q)%js.

(** [getTokenBalance]; a reply without a [value] is a [TypeError]. *)
Definition getTokenBalance (w : World) (mint : PublicKey) : M (Ctx L) Q :=
  try_catch
    (c <- get ;;
     ata <- lift (derive_ata w mint (publicKey (payer (this c)))) ;;
     emit (GetTokenAccountBalance ata) ;;
     balanceInfo <- lift (rpc_tokenBalance w) ;;
     match balanceInfo with
     | Some v => ret (inject_Z (amount v) / inject_Z (10 ^ Z.of_nat (decimals v)))%Q
     | None => throw (Error "TypeError: Cannot read properties of undefined")
     end)%js
    (fun e =>
       log (LogError "Error getting token balance:" e) ;;
       ret 0%Q)%js.

(** The part [swapMakers] and [swapVolume] share once the quote request
    is fixed: quote, pick the first route, ask for the transaction, set
    the blockhash, sign. [n] is the number of the aggregator call. *)
Definition quote_and_build (w : World) (n : nat) (req : QuoteRequest)
    (signer : Keypair) (blockhash : string) : M (Ctx L) VersionedTransaction :=
  (emit (FetchQuote req) ;;
   data <- lift (agg_quote w n) ;;
   match quote_data data with
   | None | Some [] => throw (Error "No routes found for the swap.")
   | Some (route :: _) =>
       emit (FetchSwap route (publicKey signer)) ;;
       swapData <- lift (agg_swap w n) ;;
       match swapTransaction swapData with
       | None => throw (Error "Failed to get swap transaction from Jupiter.")
       | Some swapTx =>
           ret {| payerKey := payerKey swapTx;
                  instructions := instructions swapTx;
                  recentBlockhash := blockhash;
                  signatures := [publicKey signer] |}
       end
   end)%js.

(** [swapMakers] *)
Definition swapMakers (w : World) (n : nat) (direction : Direction)
    (mint : PublicKey) (signer : Keypair) (blockhash dexes : string)
  : M (Ctx L) VersionedTransaction :=
  let amount := 1%Q in
  let swapMode := if Direction_eqb direction buy then ExactOut else ExactIn in
  let inputMint := if Direction_eqb direction buy then WSOL_MINT else mint in
  let outputMint := if Direction_eqb direction buy then mint else WSOL_MINT in
  quote_and_build w n
    {| inputMint := inputMint; outputMint := outputMint;
       quote_amount := amount; swapMode := swapMode; quote_dexes := dexes |}
    signer blockhash.

(** [swapVolume] *)
Definition swapVolume (w : World) (direction : Direction)
    (mint : PublicKey) (amount : Q) (blockhash : string) (signer : Keypair)
    (dexes : string) : M (Ctx L) VersionedTransaction :=
  let swapMode := if Direction_eqb direction buy then ExactIn else ExactOut in
  let inputMint := if Direction_eqb direction buy then WSOL_MINT else mint in
  let outputMint := if Direction_eqb direction buy then mint else WSOL_MINT in
  quote_and_build w 0
    {| inputMint := inputMint; outputMint := outputMint;
       quote_amount := amount; swapMode := swapMode; quote_dexes := dexes |}
    signer blockhash.

End Primitives.

(** Options common to the three workflows. *)
Record Options : Type :=
  { jitoTipLamports : option Z; includeDexes : option (list string) }.

(** [options.jitoTipLamports || dflt] *)
Definition tip_or (o : Options) (dflt : Z) : Z :=
  match jitoTipLamports o with
  | Some t => if (t =? 0)%Z then dflt else t
  | None => dflt
  end.

(** [includeDexes.join(",")], the empty text when absent or empty. *)
Definition dexes_of (o : Options) : string :=
  match includeDexes o with
  | Some l => String.concat "," l
  | None => ""
  end.

(* ------------------------------------------------------------------ *)
(** * [makers] *)

Record MakerStats : Type :=
  { makersCompleted : Z;
    makersRemaining : Z;
    bundleCount : Z;
    latestBundleId : option string;
    finished : bool }.

Definition set_finished (s : MakerStats) : MakerStats :=
  {| makersCompleted := makersCompleted s;
     makersRemaining := makersRemaining s;
     bundleCount := bundleCount s;
     latestBundleId := latestBundleId s;
     finished := true |}.

(** Lines 317-320: the bookkeeping after an acknowledged bundle. *)
Definition record_bundle (totalMakersRequired : Z) (id : string)
    (signers : nat) (s : MakerStats) : MakerStats :=
  let completed := (makersCompleted s + Z.of_nat signers)%Z in
  {| makersCompleted := completed;
     makersRemaining := (totalMakersRequired - completed)%Z;
     bundleCount := (bundleCount s + 1)%Z;
     latestBundleId := Some id;
     finished := finished s |}.

(** The staleness test of the maker loop (lines 276-279). *)
Definition makers_stale (c : Ctx MakerStats) : bool :=
  String.eqb (blockhash (this c)) ""
  || (10 <=? bundleCount (locals c) - lastBlockhashRefresh (this c))%Z.

(** Lines 276-285. *)
Definition makers_refresh (w : World) : M (Ctx MakerStats) unit :=
  (c <- get ;;
   if makers_stale c
   then bh <- getLatestBlockhash w ;;
        set_this (fun a => set_blockhash a bh (bundleCount (locals c)))
   else ret tt)%js.

(** Lines 287-330: what follows the refresh inside the [try]. *)
Definition makers_bundle (w : World) (mint : PublicKey)
    (totalMakersRequired : Z) (dexes : string) (tip : Z)
  : M (Ctx MakerStats) unit :=
  (let signers := map (fresh_keypair w) (seq 0 4) in
   c <- get ;;
   fundTx <- lift (createFundTx (this c) (random_jitoAccount w) signers tip
                     (blockhash (this c))) ;;
   swapTxs <- sequence
                (map (fun ns => swapMakers w (fst ns) buy mint (snd ns)
                                  (blockhash (this c)) dexes)
                     (combine (seq 0 4) signers)) ;;
   let serializedTxs := fundTx :: swapTxs in
   bundleResponse <- sendBundle w serializedTxs
                       (getRandomJitoUrl (random_jitoUrl w)) ;;
   match bundle_result bundleResponse with
   | Some id =>
       set_locals (record_bundle totalMakersRequired id (length signers)) ;;
       currentSolBalance <- getSolBalance w ;;
       c' <- get ;;
       log (LogBundle (bundleCount (locals c')) (makersCompleted (locals c'))
              totalMakersRequired currentSolBalance)
   | None => ret tt
   end)%js.

(** One pass through the body of the [while] loop (lines 274-334). *)
Definition makers_iteration (w : World) (mint : PublicKey)
    (totalMakersRequired : Z) (dexes : string) (tip : Z)
  : M (Ctx MakerStats) unit :=
  try_catch
    (makers_refresh w ;; makers_bundle w mint totalMakersRequired dexes tip)%js
    (fun e => log (LogError "Error in makers:" e) ;; wait 5000)%js.

(** The [while] loop, one [World] per pass. The result is [None] when the
    worlds run out before the loop condition fails; otherwise the final
    state and the number of passes made. *)
Fixpoint makers_loop (ws : list World) (mint : PublicKey)
    (totalMakersRequired : Z) (dexes : string) (tip : Z)
    (passes : nat) (c : Ctx MakerStats) : option (Ctx MakerStats * nat) :=
  if (makersCompleted (locals c) <? totalMakersRequired)%Z
  then match ws with
       | [] => None
       | w :: rest =>
           makers_loop rest mint totalMakersRequired dexes tip (S passes)
             (snd (makers_iteration w mint totalMakersRequired dexes tip c))
       end
  else Some (c, passes).

(** [makers(mint, totalMakersRequired, options)] run on the object [a]. *)
Definition makers (ws : list World) (a : AMM) (mint : PublicKey)
    (totalMakersRequired : Z) (options : Options)
  : option (Ctx MakerStats * nat) :=
  let dexes := dexes_of options in
  let tip := tip_or options 100000 in
  let stats :=
    {| makersCompleted := 0;
       makersRemaining := totalMakersRequired;
       bundleCount := 0;
       latestBundleId := None;
       finished := false |} in
  let c0 := {| this := a; locals := stats; trace := [] |} in
  let c1 := snd (log (LogText "Starting makers...") c0) in
  match makers_loop ws mint totalMakersRequired dexes tip 0 c1 with
  | Some (c, passes) =>
      Some ({| this := this c; locals := set_finished (locals c); trace := trace c |},
            passes)
  | None => None
  end.

(* ------------------------------------------------------------------ *)
(** * [volume] *)

Record VolumeLocals : Type :=
  { totalNetVolume : Q;
    totalRealVolume : Q;
    tradesUntilNextSell : Z;
    startTime : Z;
    tradeCount : Z }.

Definition set_tradesUntilNextSell (n : Z) (l : VolumeLocals) : VolumeLocals :=
  {| totalNetVolume := totalNetVolume l;
     totalRealVolume := totalRealVolume l;
     tradesUntilNextSell := n;
     startTime := startTime l;
     tradeCount := tradeCount l |}.

(** Lines 430-437: the bookkeeping after an acknowledged bundle. *)
Definition record_trade (direction : Direction) (amount : Z)
    (l : VolumeLocals) : VolumeLocals :=
  let solAmount := (inject_Z amount / 1e9)%Q in
  {| totalNetVolume :=
       (if Direction_eqb direction buy
        then totalNetVolume l + solAmount
        else totalNetVolume l - solAmount)%Q;
     totalRealVolume := (totalRealVolume l + solAmount)%Q;
     tradesUntilNextSell := tradesUntilNextSell l;
     startTime := startTime l;
     tradeCount := (tradeCount l + 1)%Z |}.

(** The staleness test of the volume loop (lines 373-374). *)
Definition volume_stale (w : World) (c : Ctx VolumeLocals) : bool :=
  String.eqb (blockhash (this c)) ""
  || (60000 <=? now_check w - lastBlockhashRefresh (this c))%Z.

(** Lines 372-381. *)
Definition volume_refresh (w : World) : M (Ctx VolumeLocals) unit :=
  (c <- get ;;
   if volume_stale w c
   then bh <- getLatestBlockhash w ;;
        set_this (fun a => set_blockhash a bh (now_refresh w))
   else ret tt)%js.

(** Lines 385-387. *)
Definition shouldSell (w : World) (l : VolumeLocals) : bool :=
  ((tradesUntilNextSell l <=? 0)%Z || Qltb (random_sellTrigger w) 0.3)
  && Qltb 0 (totalNetVolume l).

(** Lines 392-393. *)
Definition maxSellPercentage (mCapFactor : Q) : Q := 1 / mCapFactor.

Definition sellPercentage (r : Q) (mCapFactor : Q) : Q :=
  0.5 + r * 0.5 * maxSellPercentage mCapFactor.

(** Line 394. *)
Definition sellAmount (net : Q) (r : Q) (mCapFactor : Q) : Z :=
  Qfloor (net * sellPercentage r mCapFactor * 1e9).

(** Lines 397-400. *)
Definition buyAmount (r : Q) (minSolPerSwap maxSolPerSwap : Q) : Z :=
  Qfloor ((r * (maxSolPerSwap - minSolPerSwap) + minSolPerSwap) * 1e9).

(** [Math.floor(Math.random() * 3) + 1] *)
Definition nextSellCountdown (r : Q) : Z := (Qfloor (r * 3) + 1)%Z.

(** Lines 385-402: direction and size of the next trade; the countdown
    to the next sell is updated on the way. *)
Definition decideTrade (w : World) (minSolPerSwap maxSolPerSwap mCapFactor : Q)
  : M (Ctx VolumeLocals) (Direction * Z) :=
  (c <- get ;;
   let l := locals c in
   if shouldSell w l
   then set_locals (set_tradesUntilNextSell (nextSellCountdown (random_nextSell w))) ;;
        ret (sell, sellAmount (totalNetVolume l) (random_sellFraction w) mCapFactor)
   else set_locals (set_tradesUntilNextSell (tradesUntilNextSell l - 1)) ;;
        ret (buy, buyAmount (random_buyAmount w) minSolPerSwap maxSolPerSwap))%js.

(** Lines 404-450: fund, swap, bundle, book. *)
Definition volume_bundle (w : World) (mint : PublicKey) (direction : Direction)
    (amount : Z) (dexes : string) (tip : Z) : M (Ctx VolumeLocals) unit :=
  (let signer := fresh_keypair w 0 in
   c <- get ;;
   fundTx <- lift (createFundSingleTx (this c) (random_jitoAccount w) signer tip
                     (blockhash (this c))) ;;
   swapTx <- swapVolume w direction mint (inject_Z amount) (blockhash (this c))
               signer dexes ;;
   let serializedTxs := [fundTx; swapTx] in
   bundleResponse <- sendBundle w serializedTxs
                       (getRandomJitoUrl (random_jitoUrl w)) ;;
   match bundle_result bundleResponse with
   | Some _ =>
       set_locals (record_trade direction amount) ;;
       currentSolBalance <- getSolBalance w ;;
       c' <- get ;;
       log (LogTrade (tradeCount (locals c')) direction (inject_Z amount / 1e9)
              (totalNetVolume (locals c')) currentSolBalance
              (now_log w - startTime (locals c')))
   | None => ret tt
   end)%js.

(** One pass through the body of [while (true)] (lines 371-458). *)
Definition volume_iteration (w : World) (mint : PublicKey)
    (minSolPerSwap maxSolPerSwap mCapFactor speedFactor : Q)
    (dexes : string) (tip : Z) : M (Ctx VolumeLocals) unit :=
  try_catch
    (volume_refresh w ;;
     trade <- decideTrade w minSolPerSwap maxSolPerSwap mCapFactor ;;
     volume_bundle w mint (fst trade) (snd trade) dexes tip ;;
     let baseDelay := (5000 + random_delay w * 10000)%Q in
     let adjustedDelay := (baseDelay / speedFactor)%Q in
     wait adjustedDelay)%js
    (fun e => log (LogError "Error during volume generation:" e) ;; wait 5000)%js.

(** The loop never ends; [volume_loop] runs it for as many passes as
    there are worlds. *)
Fixpoint volume_loop (ws : list World) (mint : PublicKey)
    (minSolPerSwap maxSolPerSwap mCapFactor speedFactor : Q)
    (dexes : string) (tip : Z) (c : Ctx VolumeLocals) : Ctx VolumeLocals :=
  match ws with
  | [] => c
  | w :: rest =>
      volume_loop rest mint minSolPerSwap maxSolPerSwap mCapFactor speedFactor
        dexes tip
        (snd (volume_iteration w mint minSolPerSwap maxSolPerSwap mCapFactor
                speedFactor dexes tip c))
  end.

(** [volume(mint, minSolPerSwap, maxSolPerSwap, mCapFactor, speedFactor,
    options)] run on the object [a]; [w0] answers the calls made before
    the loop and [ws] the passes of the loop that are observed. *)
Definition volume (w0 : World) (ws : list World) (a : AMM) (mint : PublicKey)
    (minSolPerSwap maxSolPerSwap mCapFactor speedFactor : Q)
    (options : Options) : Ctx VolumeLocals :=
  let dexes := dexes_of options in
  let tip := tip_or options 1000000 in
  let c0 := {| this := a; locals := tt; trace := [] |} in
  let c1 := snd (log (LogText "Starting volume generation...") c0) in
  let l :=
    {| totalNetVolume := 0;
       totalRealVolume := 0;
       tradesUntilNextSell := nextSellCountdown (random_nextSell w0);
       startTime := now_check w0;
       tradeCount := 0 |} in
  volume_loop ws mint minSolPerSwap maxSolPerSwap mCapFactor speedFactor dexes tip
    {| this := this c1; locals := l; trace := trace c1 |}.

(* ------------------------------------------------------------------ *)
(** * [swap] *)

(** Lines 484-512: the body of the [try]. *)
Definition swap_attempt (w : World) (mint : PublicKey) (direction : Direction)
    (amount : Q) (tip : Z) (dexes : string) : M (Ctx unit) unit :=
  (let signer := fresh_keypair w 0 in
   c <- get ;;
   fundTx <- lift (createFundSingleTx (this c) (random_jitoAccount w) signer tip
                     (blockhash (this c))) ;;
   swapTx <- swapVolume w direction mint (amount * 1e9)%Q (blockhash (this c))
               signer dexes ;;
   let serializedTxs := [fundTx; swapTx] in
   bundleResponse <- sendBundle w serializedTxs
                       (getRandomJitoUrl (random_jitoUrl w)) ;;
   match bundle_result bundleResponse with
   | Some id => log (LogSwap id)
   | None =>
       match bundleResponse with
       | Some resp =>
           throw (Error ("Swap failed: " ++ or_else (error resp) "Unknown error"))
       | None => throw (Error "TypeError: Cannot read properties of null")
       end
   end)%js.

(** [swap(mint, direction, amount, options)] *)
Definition swap (w : World) (mint : PublicKey) (direction : Direction)
    (amount : Q) (options : Options) : M (Ctx unit) unit :=
  (c <- get ;;
   (if String.eqb (blockhash (this c)) "" then initializeBlockhash w else ret tt) ;;
   let tip := tip_or options 1000000 in
   let dexes := dexes_of options in
   try_catch
     (swap_attempt w mint direction amount tip dexes)
     (fun e => log (LogError "Error during swap:" e) ;; throw e))%js.

(* ------------------------------------------------------------------ *)
(** * Observations on a run *)

(** [preserves f m]: running [m] does not change the observation [f] of
    the state, whether [m] returns or throws. *)
Definition preserves {S A X} (f : S -> X) (m : M S A) : Prop :=
  forall s, f (snd (m s)) = f s.

(** Observations on the trace: how many events of a kind it holds. *)
Definition is_fetch (e : Event) : bool :=
  match e with GetLatestBlockhash => true | _ => false end.

Definition is_send (e : Event) : bool :=
  match e with SendBundle _ _ => true | _ => false end.

Definition count_events {L} (p : Event -> bool) (c : Ctx L) : nat :=
  length (filter p (trace c)).

(** The same state with other workflow locals. *)
Definition with_locals {L} (c : Ctx L) (l : L) : Ctx L :=
  {| this := this c; locals := l; trace := trace c |}.



(** The summary a run returns, as the four numbers of interest. *)
Definition summary (r : option (Ctx MakerStats * nat))
  : option (Z * Z * Z * bool * nat) :=
  match r with
  | Some (c, passes) =>
      Some (makersCompleted (locals c), makersRemaining (locals c),
            bundleCount (locals c), finished (locals c), passes)
  | None => None
  end.

(* ------------------------------------------------------------------ *)
(** * Assumptions on the outside world *)

(** The draws that pick the tip account and the relay are
    [Math.random()] values. *)
Definition draws_ok (w : World) : Prop :=
  unit_draw (random_jitoAccount w) /\ unit_draw (random_jitoUrl w).

(** The draws that size a trade are [Math.random()] values. *)
Definition sizing_draws_ok (w : World) : Prop :=
  unit_draw (random_sellFraction w) /\ unit_draw (random_buyAmount w).


(** The chain answers the blockhash request with a blockhash. *)
Definition chain_answers (w : World) : Prop :=
  exists bh, rpc_latestBlockhash w = Ok bh /\ bh <> "".


(** The aggregator answers call number [n] with a route and with a
    transaction for it. *)
Definition aggregator_answers (w : World) (n : nat) : Prop :=
  (exists route more, agg_quote w n = Ok {| quote_data := Some (route :: more) |})
  /\ (exists tx, agg_swap w n = Ok {| swapTransaction := Some tx |}).

(** The relay acknowledges the bundle with a bundle id. *)
Definition relay_acknowledges (w : World) : Prop :=
  exists id e,
    relay_response w = Ok (Some {| result := Some id; error := e |}) /\ id <> "".

(** Every service answers. *)
Definition world_succeeds (w : World) : Prop :=
  draws_ok w /\ chain_answers w /\ (forall n, aggregator_answers w n)
  /\ relay_acknowledges w.


(** The error [swapMakers] and [swapVolume] throw then. *)
Definition NoRouteFound : JsError := Error "No routes found for the swap.".

(** The token-balance lookup fails: the address derivation throws, the
    RPC call throws, or the reply has no value. *)
Definition token_lookup_fails (w : World) (mint owner : PublicKey) : Prop :=
  (exists e, derive_ata w mint owner = Throw e)
  \/ (exists e, rpc_tokenBalance w = Throw e)
  \/ rpc_tokenBalance w = Ok None.

(** A tip the eight payload bytes can hold. *)
Definition tip_encodable (tip : Z) : Prop := (Z.abs tip < 2 ^ 64)%Z.

(* ------------------------------------------------------------------ *)
(** * Quantities the statements speak of *)


(** [{}] as the options argument. *)
Definition no_options : Options :=
  {| jitoTipLamports := None; includeDexes := None |}.



(** The trade [decideTrade] settles on, and the countdown it leaves. *)
Definition planned_trade (w : World) (lo hi m : Q) (l : VolumeLocals)
  : Direction * Z :=
  if shouldSell w l
  then (sell, sellAmount (totalNetVolume l) (random_sellFraction w) m)
  else (buy, buyAmount (random_buyAmount w) lo hi).

(** The countdown to the next sell that [decideTrade] leaves. *)
Definition countdown_after (w : World) (l : VolumeLocals) : Z :=
  if shouldSell w l
  then nextSellCountdown (random_nextSell w)
  else (tradesUntilNextSell l - 1)%Z.

(* ------------------------------------------------------------------ *)
(** * Sample inputs *)

(** A concrete object, concrete recipients and a concrete world in which
    every service answers, to run the workflows on. *)
Definition demo_amm (bh : string) : AMM :=
  {| payer := {| publicKey := "PayerPayerPayerPayerPayerPayerPayerPayer111" |};
     jupiterCache_lastUpdateTime := 0;
     disableLogs := false;
     balance := 0;
     blockhash := bh;
     lastBlockhashRefresh := 0 |}.

Definition demo_keypair (n : nat) : Keypair :=
  {| publicKey := String (ascii_of_nat (65 + n)) "ephemeral" |}.

Definition demo_blockhash : string := "EkSnNWid2cvwEVnVx9aBqawnmiCNiDgp3gUdkDPTKN1N".

Definition demo_ctx (bh : string) : Ctx unit :=
  {| this := demo_amm bh; locals := tt; trace := [] |}.

Definition demo_fund4 : Result VersionedTransaction :=
  createFundTx (demo_amm "") 0.5
    [demo_keypair 0; demo_keypair 1; demo_keypair 2; demo_keypair 3]
    100000 demo_blockhash.

Definition demo_fund1 : Result VersionedTransaction :=
  createFundSingleTx (demo_amm "") 0.5 (demo_keypair 0) 100000 demo_blockhash.

(** The transaction of a successful build. *)
Definition unwrap (r : Result VersionedTransaction) : VersionedTransaction :=
  match r with
  | Ok tx => tx
  | Throw _ =>
      {| payerKey := ""; instructions := []; recentBlockhash := ""; signatures := [] |}
  end.

(** The transaction the sample aggregator hands out. *)
Definition demo_swap_tx : VersionedTransaction :=
  {| payerKey := "Aephemeral";
     instructions := [Custom {| programId := "JUP6LkbZbjS1jKKwapdHNy74zcZ3tLUZoi5QNyVTaV4";
                                keys := []; data := [] |}];
     recentBlockhash := "stale";
     signatures := [] |}.

Definition demo_world : World :=
  {| random_sellTrigger := 0;
     random_sellFraction := 0.75;
     random_nextSell := 0.5;
     random_buyAmount := 0.5;
     random_jitoAccount := 0.5;
     random_jitoUrl := 0.5;
     random_delay := 0.5;
     now_check := 1700000000000;
     now_refresh := 1700000000250;
     now_log := 1700000001000;
     fresh_keypair := demo_keypair;
     rpc_latestBlockhash := Ok demo_blockhash;
     rpc_balance := Ok 5000000000%Z;
     rpc_tokenBalance := Ok (Some {| amount := 0; decimals := 6 |});
     derive_ata := fun _ _ => Ok "AssociatedTokenAccount";
     agg_quote := fun _ => Ok {| quote_data := Some ["route"] |};
     agg_swap := fun _ => Ok {| swapTransaction := Some demo_swap_tx |};
     relay_response := Ok (Some {| result := Some "bundle-id"; error := None |}) |}.


(** The same world with another relay reply. *)
Definition with_relay (w : World) (r : Result (option RelayResponse)) : World :=
  {| random_sellTrigger := random_sellTrigger w;
     random_sellFraction := random_sellFraction w;
     random_nextSell := random_nextSell w;
     random_buyAmount := random_buyAmount w;
     random_jitoAccount := random_jitoAccount w;
     random_jitoUrl := random_jitoUrl w;
     random_delay := random_delay w;
     now_check := now_check w;
     now_refresh := now_refresh w;
     now_log := now_log w;
     fresh_keypair := fresh_keypair w;
     rpc_latestBlockhash := rpc_latestBlockhash w;
     rpc_balance := rpc_balance w;
     rpc_tokenBalance := rpc_tokenBalance w;
     derive_ata := derive_ata w;
     agg_quote := agg_quote w;
     agg_swap := agg_swap w;
     relay_response := r |}.

(** The same world with other quote replies. *)
Definition with_quotes (w : World) (q : nat -> Result QuoteResponse) : World :=
  {| random_sellTrigger := random_sellTrigger w;
     random_sellFraction := random_sellFraction w;
     random_nextSell := random_nextSell w;
     random_buyAmount := random_buyAmount w;
     random_jitoAccount := random_jitoAccount w;
     random_jitoUrl := random_jitoUrl w;
     random_delay := random_delay w;
     now_check := now_check w;
     now_refresh := now_refresh w;
     now_log := now_log w;
     fresh_keypair := fresh_keypair w;
     rpc_latestBlockhash := rpc_latestBlockhash w;
     rpc_balance := rpc_balance w;
     rpc_tokenBalance := rpc_tokenBalance w;
     derive_ata := derive_ata w;
     agg_quote := q;
     agg_swap := agg_swap w;
     relay_response := relay_response w |}.

(** The aggregator finds no route, whatever is asked. *)
Definition routeless_world : World :=
  with_quotes demo_world (fun _ => Ok {| quote_data := Some [] |}).

(* ------------------------------------------------------------------ *)
(** * Address lookup tables (common.ts) *)



(* ------------------------------------------------------------------ *)
(** * Further quantities the statements speak of *)

(** The accounts of an instruction that must sign. *)
Definition signer_keys (ix : TransactionInstruction) : list PublicKey :=
  map pubkey (filter isSigner (keys ix)).

(** What both builders wrap around their instruction. *)
Definition funding_envelope (a : AMM) (bh : string) (tx : VersionedTransaction)
  : Prop :=
  payerKey tx = publicKey (payer a)
  /\ signatures tx = [publicKey (payer a)]
  /\ recentBlockhash tx = bh
  /\ bh <> ""
  /\ exists ix,
       instructions tx
       = [SetComputeUnitPrice 16666; SetComputeUnitLimit 600000; Custom ix]
       /\ programId ix = AMM_PROGRAM_ID
       /\ signer_keys ix = [publicKey (payer a)].

(** What the volume counters satisfy after at most [n] passes. *)
Definition volume_accounts (n : Z) (l : VolumeLocals) : Prop :=
  (0 <= tradeCount l <= n)%Z
  /\ (- totalRealVolume l <= totalNetVolume l)%Q
  /\ (totalNetVolume l <= totalRealVolume l)%Q.

(** What the maker statistics satisfy at the head of the loop after at
    most [n] passes. *)
Definition maker_accounts (total : Z) (n : Z) (s : MakerStats) : Prop :=
  (makersCompleted s = 4 * bundleCount s
   /\ 0 <= bundleCount s <= n
   /\ makersRemaining s = total - makersCompleted s
   /\ makersCompleted s < Z.max total 0 + 4)%Z
  /\ (bundleCount s = 0%Z \/ latestBundleId s <> None).

(** The bundles submitted so far, in order. *)
Definition sent {L} (c : Ctx L) : list Event := filter is_send (trace c).

Definition is_wait (e : Event) : bool :=
  match e with Wait _ => true | _ => false end.

(** The waits made so far, in order. *)
Definition waits {L} (c : Ctx L) : list Event := filter is_wait (trace c).

(** The recipients a funding transaction names: the accounts of its
    instruction between the payer and the tip account. *)
Definition funded_accounts (tx : VersionedTransaction) : list PublicKey :=
  match custom_instructions (instructions tx) with
  | [ix] => map pubkey (firstn (length (keys ix) - 5) (skipn 1 (keys ix)))
  | _ => []
  end.

(** A bundle is consistent when it is a funding transaction followed by
    swap transactions, every one of them on the same, non-empty
    blockhash, the funding transaction signed by its payer, and the swap
    transactions signed, one each and in order, by the accounts the
    funding transaction funds. *)
Definition consistent_bundle (bh : string) (n : nat) (e : Event) : Prop :=
  match e with
  | SendBundle (fundTx :: swapTxs) url =>
      In url JITO_URLS
      /\ bh <> ""
      /\ length swapTxs = n
      /\ Forall (fun tx => recentBlockhash tx = bh) (fundTx :: swapTxs)
      /\ signatures fundTx = [payerKey fundTx]
      /\ map signatures swapTxs = map (fun k => [k]) (funded_accounts fundTx)
  | _ => False
  end.


(* ================================================================== *)
(** * Properties *)

(** ** Comparisons, draws and indexing *)

Lemma Qltb_true a b : Qltb a b = true <-> (a < b)%Q.
Proof.
  unfold Qltb. rewrite negb_true_iff. split; intro H.
  - apply Qnot_le_lt. intro L. apply Qle_bool_iff in L. congruence.
  - destruct (Qle_bool b a) eqn:E; [|reflexivity].
    apply Qle_bool_iff in E. exfalso. apply (Qlt_not_le _ _ H E).
Qed.

Lemma Qltb_false a b : Qltb a b = false <-> (b <= a)%Q.
Proof.
  unfold Qltb. rewrite negb_false_iff. apply Qle_bool_iff.
Qed.

Lemma random_index_range r n :
  unit_draw r -> (0 < n)%nat -> (0 <= random_index r n < Z.of_nat n)%Z.
Proof.
  intros [H0 H1] Hn. unfold random_index.
  assert (Hq : (0 < inject_Z (Z.of_nat n))%Q).
  { change 0%Q with (inject_Z 0). rewrite <- Zlt_Qlt. lia. }
  split.
  - change 0%Z with (Qfloor (inject_Z 0)) at 1.
    apply Qfloor_resp_le. change (inject_Z 0) with 0%Q. nra.
  - apply Z.lt_nge. intro Hge.
    assert (L := Qfloor_le (r * inject_Z (Z.of_nat n))).
    rewrite Zle_Qle in Hge. nra.
Qed.

Lemma js_index_in_range {A} (l : list A) i :
  (0 <= i < Z.of_nat (length l))%Z -> exists a, js_index l i = Some a /\ In a l.
Proof.
  intros H. unfold js_index.
  destruct (Z.ltb_spec i 0); [lia|].
  destruct (nth_error l (Z.to_nat i)) eqn:E.
  - exists a. split; [reflexivity|]. eapply nth_error_In; eauto.
  - apply nth_error_None in E. lia.
Qed.

Lemma getRandomJitoAccount_some r :
  unit_draw r -> exists a, getRandomJitoAccount r = Some a /\ In a JITO_ACCOUNTS.
Proof.
  intro H. apply js_index_in_range. apply random_index_range; [assumption|].
  simpl. lia.
Qed.

Lemma getRandomJitoAccount_in r a :
  getRandomJitoAccount r = Some a -> In a JITO_ACCOUNTS.
Proof.
  unfold getRandomJitoAccount, js_index.
  destruct (_ <? 0)%Z; [discriminate|]. apply nth_error_In.
Qed.

Lemma getRandomJitoUrl_some r :
  unit_draw r -> exists u, getRandomJitoUrl r = Some u.
Proof.
  intro H.
  destruct (@js_index_in_range _ JITO_URLS (random_index r (length JITO_URLS)))
    as [u [Hu _]].
  - apply random_index_range; [assumption|]. simpl. lia.
  - exists u. exact Hu.
Qed.

(** ** The funding payload *)





Lemma createVtx_ok ixs wallet bh :
  bh <> "" ->
  createVtxWithOnlyMainSigner ixs wallet bh =
  Ok {| payerKey := publicKey wallet; instructions := ixs;
        recentBlockhash := bh; signatures := [publicKey wallet] |}.
Proof.
  intro H. unfold createVtxWithOnlyMainSigner.
  destruct (String.eqb_spec bh ""); [contradiction|reflexivity].
Qed.



Lemma half_is_unit_draw : unit_draw 0.5.
Proof. split; [discriminate|reflexivity]. Qed.


(** ** The funding account lists *)

Lemma Ok_inj {A} (x y : A) : Ok x = Ok y -> x = y.
Proof. intro H. congruence. Qed.

Lemma instructionData_inv command tip payload :
  instructionData command tip = Ok payload ->
  payload = (command mod 256)%Z :: BN.le_bytes 8 (Z.abs tip).
Proof.
  unfold instructionData, BN.toArrayLike_le.
  destruct (Z.abs tip <? 2 ^ (8 * Z.of_nat 8))%Z; [|discriminate].
  intro H. apply Ok_inj in H. subst payload.
  cbn [Buf.alloc repeat]. cbn [Buf.set]. cbn [BN.le_bytes]. cbn [Buf.copy].
  reflexivity.
Qed.

Lemma instructionData_head command tip payload :
  instructionData command tip = Ok payload ->
  hd_error payload = Some (command mod 256)%Z.
Proof.
  intro H. apply instructionData_inv in H. subst payload. reflexivity.
Qed.

Lemma createVtx_instructions ixs wallet bh tx :
  createVtxWithOnlyMainSigner ixs wallet bh = Ok tx -> instructions tx = ixs.
Proof.
  unfold createVtxWithOnlyMainSigner. destruct (String.eqb bh "");
    [discriminate|]. intro H. apply Ok_inj in H. subst tx. reflexivity.
Qed.

(** C4. Whatever the inputs, when the two builders produce a transaction
    the command identifier of the four-recipient one differs from that of
    the one-recipient one, and the account list of the four-recipient
    instruction is: the payer, the four recipients (writable, not
    signers), one writable tip account taken from [JITO_ACCOUNTS],
    [FEE_ACCOUNT_1], [FEE_ACCOUNT_2], and the system program. *)
Theorem funding_tags_and_accounts :
  forall (a a' : AMM) (r r' : Q) (pubkeys : list Keypair) (k : Keypair)
         (tip tip' : Z) (bh bh' : string) (tx4 tx1 : VersionedTransaction),
    createFundTx a r pubkeys tip bh = Ok tx4 ->
    createFundSingleTx a' r' k tip' bh' = Ok tx1 ->
    exists ix4 ix1 k0 k1 k2 k3 more jito,
      custom_instructions (instructions tx4) = [ix4]
      /\ custom_instructions (instructions tx1) = [ix1]
      /\ hd_error (data ix4) = Some 0%Z
      /\ hd_error (data ix1) = Some 3%Z
      /\ hd_error (data ix4) <> hd_error (data ix1)
      /\ pubkeys = k0 :: k1 :: k2 :: k3 :: more
      /\ In jito JITO_ACCOUNTS
      /\ keys ix4 =
         [ {| pubkey := publicKey (payer a); isSigner := true; isWritable := true |};
           {| pubkey := publicKey k0; isSigner := false; isWritable := true |};
           {| pubkey := publicKey k1; isSigner := false; isWritable := true |};
           {| pubkey := publicKey k2; isSigner := false; isWritable := true |};
           {| pubkey := publicKey k3; isSigner := false; isWritable := true |};
           {| pubkey := jito; isSigner := false; isWritable := true |};
           {| pubkey := FEE_ACCOUNT_1; isSigner := false; isWritable := true |};
           {| pubkey := FEE_ACCOUNT_2; isSigner := false; isWritable := true |};
           {| pubkey := SystemProgram_programId; isSigner := false; isWritable := false |} ].
Proof.
  intros a a' r r' pubkeys k tip tip' bh bh' tx4 tx1 H4 H1.
  unfold createFundTx in H4.
  destruct (getRandomJitoAccount r) as [jito|] eqn:Hj; [|discriminate].
  destruct pubkeys as [|k0 [|k1 [|k2 [|k3 more]]]]; try discriminate.
  destruct (instructionData 0 tip) as [p4|] eqn:Hp4; [|discriminate].
  apply createVtx_instructions in H4.
  unfold createFundSingleTx in H1.
  destruct (getRandomJitoAccount r') as [jito'|]; [|discriminate].
  destruct (instructionData 3 tip') as [p1|] eqn:Hp1; [|discriminate].
  apply createVtx_instructions in H1.
  apply instructionData_head in Hp4, Hp1.
  eexists. eexists. exists k0, k1, k2, k3, more, jito.
  rewrite H4, H1. cbn [custom_instructions getComputeBudgetInstructions app data keys].
  split; [reflexivity|]. split; [reflexivity|].
  cbn [data keys]. rewrite Hp4, Hp1.
  repeat split; try reflexivity.
  - discriminate.
  - eapply getRandomJitoAccount_in; eassumption.
Qed.

Lemma funding_tags_and_accounts_witness :
  exists ix4 ix1 k0 k1 k2 k3 more jito,
    custom_instructions (instructions (unwrap demo_fund4)) = [ix4]
    /\ custom_instructions (instructions (unwrap demo_fund1)) = [ix1]
    /\ hd_error (data ix4) = Some 0%Z
    /\ hd_error (data ix1) = Some 3%Z
    /\ hd_error (data ix4) <> hd_error (data ix1)
    /\ [demo_keypair 0; demo_keypair 1; demo_keypair 2; demo_keypair 3]
       = k0 :: k1 :: k2 :: k3 :: more
    /\ In jito JITO_ACCOUNTS
    /\ keys ix4 =
       [ {| pubkey := publicKey (payer (demo_amm "")); isSigner := true; isWritable := true |};
         {| pubkey := publicKey k0; isSigner := false; isWritable := true |};
         {| pubkey := publicKey k1; isSigner := false; isWritable := true |};
         {| pubkey := publicKey k2; isSigner := false; isWritable := true |};
         {| pubkey := publicKey k3; isSigner := false; isWritable := true |};
         {| pubkey := jito; isSigner := false; isWritable := true |};
         {| pubkey := FEE_ACCOUNT_1; isSigner := false; isWritable := true |};
         {| pubkey := FEE_ACCOUNT_2; isSigner := false; isWritable := true |};
         {| pubkey := SystemProgram_programId; isSigner := false; isWritable := false |} ].
Proof.
  apply (@funding_tags_and_accounts (demo_amm "") (demo_amm "") 0.5 0.5
           [demo_keypair 0; demo_keypair 1; demo_keypair 2; demo_keypair 3]
           (demo_keypair 0) 100000 100000 demo_blockhash demo_blockhash
           (unwrap demo_fund4) (unwrap demo_fund1)).
  - vm_compute. reflexivity.
  - vm_compute. reflexivity.
Defined.

(** ** Running the monad *)

Lemma bind_run {S A B} (m : M S A) (k : A -> M S B) s a :
  fst (m s) = Ok a -> bind m k s = k a (snd (m s)).
Proof. unfold bind. destruct (m s) as [[x|e] s']; simpl; congruence. Qed.


Lemma try_catch_ok {S A} (m : M S A) h s a :
  fst (m s) = Ok a -> try_catch m h s = (Ok a, snd (m s)).
Proof. unfold try_catch. destruct (m s) as [[x|e] s']; simpl; congruence. Qed.


(** ** Frame properties *)

(** How [preserves] composes along a computation. *)

Section Frame.

Context {S X : Type} (f : S -> X).

Lemma preserves_ret {A} (a : A) : preserves f (ret a).
Proof. intro s. reflexivity. Qed.

Lemma preserves_throw {A} e : preserves f (@throw S A e).
Proof. intro s. reflexivity. Qed.

Lemma preserves_lift {A} (r : Result A) : preserves f (lift r).
Proof. intro s. reflexivity. Qed.

Lemma preserves_get : preserves f get.
Proof. intro s. reflexivity. Qed.

Lemma preserves_modify g : (forall s, f (g s) = f s) -> preserves f (modify g).
Proof. intros H s. apply H. Qed.

Lemma preserves_bind {A B} (m : M S A) (k : A -> M S B) :
  preserves f m -> (forall a, preserves f (k a)) -> preserves f (bind m k).
Proof.
  intros Hm Hk s. unfold bind. specialize (Hm s).
  destruct (m s) as [[a|e] s']; simpl in *.
  - rewrite Hk. exact Hm.
  - exact Hm.
Qed.

Lemma preserves_try_catch {A} (m : M S A) h :
  preserves f m -> (forall e, preserves f (h e)) -> preserves f (try_catch m h).
Proof.
  intros Hm Hh s. unfold try_catch. specialize (Hm s).
  destruct (m s) as [[a|e] s']; simpl in *.
  - exact Hm.
  - rewrite Hh. exact Hm.
Qed.

Lemma preserves_sequence {A} (ms : list (M S A)) :
  Forall (preserves f) ms -> preserves f (sequence ms).
Proof.
  induction 1 as [|m rest Hm _ IH]; cbn [sequence].
  - apply preserves_ret.
  - apply preserves_bind; [exact Hm|]. intro a.
    apply preserves_bind; [exact IH|]. intro l. apply preserves_ret.
Qed.

End Frame.

Lemma count_events_snoc {L} p (a : AMM) (l : L) tr e :
  count_events p {| this := a; locals := l; trace := tr ++ [e] |} =
  (count_events p {| this := a; locals := l; trace := tr |}
   + (if p e then 1 else 0))%nat.
Proof.
  unfold count_events. cbn [trace]. rewrite filter_app, length_app.
  cbn [filter]. destruct (p e); reflexivity.
Qed.

Ltac observe :=
  intros; try reflexivity;
  match goal with
  | c : Ctx _ |- _ =>
      destruct c; cbn [this locals trace];
      rewrite count_events_snoc; cbn; apply Nat.add_0_r
  end.

Ltac frame_step :=
  match goal with
  | |- forall _, _ => intro
  | |- preserves _ (bind _ _) => apply preserves_bind
  | |- preserves _ (try_catch _ _) => apply preserves_try_catch
  | |- preserves _ (ret _) => apply preserves_ret
  | |- preserves _ (throw _) => apply preserves_throw
  | |- preserves _ (lift _) => apply preserves_lift
  | |- preserves _ get => apply preserves_get
  | |- preserves _ (modify _) => apply preserves_modify; observe
  | |- preserves _ (sequence _) => apply preserves_sequence
  | |- Forall _ (map _ _) => apply Forall_map, Forall_forall
  | |- preserves _ (match ?x with _ => _ end) => destruct x
  end.

Ltac frame :=
  cbv zeta;
  unfold swapMakers, swapVolume, quote_and_build, getSolBalance, getTokenBalance,
         sendBundle, wait, log, emit, set_locals, set_this;
  repeat frame_step.

Section FramePrimitives.

Context {L : Type}.

Lemma log_keeps_this line : preserves (@this L) (log line).
Proof. frame. Qed.

Lemma log_keeps_locals line : preserves (@locals L) (log line).
Proof. frame. Qed.

Lemma getSolBalance_keeps_this w : preserves (@this L) (getSolBalance w).
Proof. frame. Qed.


Lemma getSolBalance_no_fetch w :
  preserves (count_events (L:=L) is_fetch) (getSolBalance w).
Proof. frame. Qed.

Lemma getTokenBalance_keeps_this w mint :
  preserves (@this L) (getTokenBalance w mint).
Proof. frame. Qed.

Lemma getTokenBalance_keeps_locals w mint :
  preserves (@locals L) (getTokenBalance w mint).
Proof. frame. Qed.

End FramePrimitives.

Lemma makers_bundle_keeps_this w mint total dexes tip :
  preserves (@this MakerStats) (makers_bundle w mint total dexes tip).
Proof. unfold makers_bundle. frame. Qed.


Lemma makers_refresh_keeps_locals w :
  preserves (@locals MakerStats) (makers_refresh w).
Proof. unfold makers_refresh, getLatestBlockhash. frame. Qed.

Lemma decideTrade_keeps_this w lo hi m :
  preserves (@this VolumeLocals) (decideTrade w lo hi m).
Proof. unfold decideTrade. frame. Qed.

Lemma decideTrade_keeps_trace w lo hi m :
  preserves (@trace VolumeLocals) (decideTrade w lo hi m).
Proof. unfold decideTrade. frame. Qed.

Lemma volume_bundle_keeps_this w mint d amt dexes tip :
  preserves (@this VolumeLocals) (volume_bundle w mint d amt dexes tip).
Proof. unfold volume_bundle. frame. Qed.


Lemma volume_refresh_keeps_locals w :
  preserves (@locals VolumeLocals) (volume_refresh w).
Proof. unfold volume_refresh, getLatestBlockhash. frame. Qed.

(** ** The builders and the primitives when the services answer *)

Lemma instructionData_total command tip :
  tip_encodable tip -> exists payload, instructionData command tip = Ok payload.
Proof.
  unfold tip_encodable, instructionData, BN.toArrayLike_le. intro H.
  change (8 * Z.of_nat 8)%Z with 64%Z.
  destruct (Z.ltb_spec (Z.abs tip) (2 ^ 64)); [|lia].
  eexists. reflexivity.
Qed.

Lemma createFundTx_ok a r k0 k1 k2 k3 more tip bh :
  unit_draw r -> tip_encodable tip -> bh <> "" ->
  exists tx, createFundTx a r (k0 :: k1 :: k2 :: k3 :: more) tip bh = Ok tx.
Proof.
  intros Hr Ht Hbh. unfold createFundTx.
  destruct (getRandomJitoAccount_some Hr) as [jito [-> _]].
  destruct (instructionData_total 0 Ht) as [p ->].
  rewrite createVtx_ok by assumption. eexists. reflexivity.
Qed.



Section RunPrimitives.

Context {L : Type}.

Lemma quote_and_build_ok w n req signer bh (c : Ctx L) :
  aggregator_answers w n ->
  exists tx, fst (quote_and_build w n req signer bh c) = Ok tx.
Proof.
  intros [[route [more Hq]] [tx Hs]].
  unfold quote_and_build, bind, emit, modify, lift. cbn.
  rewrite Hq. cbn. rewrite Hs. cbn. eexists. reflexivity.
Qed.



Lemma sequence_ok {A} (ms : list (M (Ctx L) A)) :
  Forall (fun m => forall c, exists a, fst (m c) = Ok a) ms ->
  forall c, exists l, fst (sequence ms c) = Ok l.
Proof.
  induction 1 as [|m rest Hm _ IH]; intro c; cbn [sequence].
  - eexists. reflexivity.
  - destruct (Hm c) as [a Ha]. rewrite (bind_run _ _ _ Ha).
    destruct (IH (snd (m c))) as [l Hl]. rewrite (bind_run _ _ _ Hl).
    eexists. reflexivity.
Qed.


End RunPrimitives.

(** ** The maker loop when every service answers *)


Ltac step H := rewrite (bind_run _ _ _ H).

Lemma sendBundle_run {L} w txs u (c : Ctx L) :
  sendBundle w txs (Some u) c
  = (relay_response w,
     {| this := this c; locals := locals c;
        trace := (trace c ++ [SendBundle txs u])%list |}).
Proof. reflexivity. Qed.


Lemma makers_stale_spec (c : Ctx MakerStats) :
  makers_stale c = true <->
  blockhash (this c) = ""
  \/ (10 <= bundleCount (locals c) - lastBlockhashRefresh (this c))%Z.
Proof.
  unfold makers_stale. rewrite orb_true_iff, String.eqb_eq, Z.leb_le. reflexivity.
Qed.

Lemma makers_refresh_ok w (c : Ctx MakerStats) :
  (makers_stale c = true -> chain_answers w) ->
  fst (makers_refresh w c) = Ok tt
  /\ blockhash (this (snd (makers_refresh w c))) <> "".
Proof.
  intros Hchain.
  unfold makers_refresh, getLatestBlockhash, bind, get, emit, set_this, modify, lift, ret.
  cbn. destruct (makers_stale c) eqn:E.
  - destruct (Hchain eq_refl) as [bh [Hbh Hne]].
    rewrite Hbh. cbn. split; [reflexivity|assumption].
  - cbn. split; [reflexivity|].
    intro H. assert (S : makers_stale c = true)
      by (apply makers_stale_spec; left; exact H).
    congruence.
Qed.








Lemma demo_world_succeeds : world_succeeds demo_world.
Proof.
  split; [|split; [|split]].
  - split; apply half_is_unit_draw.
  - exists demo_blockhash. split; [reflexivity|discriminate].
  - intro n. split.
    + exists "route", []. reflexivity.
    + exists demo_swap_tx. reflexivity.
  - exists "bundle-id", None. split; [reflexivity|discriminate].
Qed.



Example makers_six_returns_eight :
  summary (makers [demo_world; demo_world; demo_world] (demo_amm "") "mint" 6
             no_options)
  = Some (8, -2, 2, true, 2%nat)%Z.
Proof. vm_compute. reflexivity. Qed.

Example makers_eight_returns_eight :
  summary (makers [demo_world; demo_world; demo_world] (demo_amm "") "mint" 8
             no_options)
  = Some (8, 0, 2, true, 2%nat)%Z.
Proof. vm_compute. reflexivity. Qed.

(** ** The two staleness policies *)

Lemma bind_observed {S A B X} (f : S -> X) (m : M S A) (k : A -> M S B) s :
  (forall a, preserves f (k a)) -> f (snd (bind m k s)) = f (snd (m s)).
Proof.
  intro Hk. unfold bind. destruct (m s) as [[a|e] s']; cbn [snd]; [apply Hk|reflexivity].
Qed.

Lemma try_catch_observed {S A X} (f : S -> X) (m : M S A) h s :
  (forall e, preserves f (h e)) -> f (snd (try_catch m h s)) = f (snd (m s)).
Proof.
  intro Hh. unfold try_catch. destruct (m s) as [[a|e] s']; cbn [snd];
    [reflexivity|apply Hh].
Qed.






(** ** The one-shot swap *)


Lemma swap_attempt_keeps_this w mint d amt tip dexes :
  preserves (@this unit) (swap_attempt w mint d amt tip dexes).
Proof. unfold swap_attempt. frame. Qed.




Example swap_relay_error_message :
  fst (swap (with_relay demo_world
               (Ok (Some {| result := None; error := Some "x" |})))
         "mint" buy 0.5 no_options (demo_ctx ""))
  = Throw (Error "Swap failed: x").
Proof. vm_compute. reflexivity. Qed.

(** ** No route *)

Section NoRoute.

Context {L : Type}.




End NoRoute.



Lemma decideTrade_run w lo hi m (c : Ctx VolumeLocals) :
  decideTrade w lo hi m c
  = (Ok (planned_trade w lo hi m (locals c)),
     with_locals c (set_tradesUntilNextSell (countdown_after w (locals c)) (locals c))).
Proof.
  unfold decideTrade, planned_trade, countdown_after, with_locals,
    bind, get, set_locals, modify, ret.
  destruct (shouldSell w (locals c)); reflexivity.
Qed.




Example no_route_in_the_three_workflows :
  (* one-shot swap: the error reaches the caller *)
  fst (swap routeless_world "mint" buy 0.5 no_options (demo_ctx ""))
  = Throw NoRouteFound
  (* makers: two failed passes leave the loop where it was *)
  /\ summary (makers [routeless_world; routeless_world] (demo_amm "") "mint" 8
                no_options) = None
  (* makers: a failed pass is made up for by the next ones *)
  /\ summary (makers [routeless_world; demo_world; demo_world] (demo_amm "") "mint"
                8 no_options)
     = Some (8, 0, 2, true, 3%nat)%Z.
Proof. vm_compute. repeat split. Qed.

(** ** Balance queries *)

(** C10. [getSolBalance] and [getTokenBalance] never throw: each always
    returns a number. When the balance RPC fails, or the token-account
    lookup fails, the number is 0, and it is also 0 when the query
    succeeds with a balance of zero; the caller cannot tell the two
    apart. *)
Theorem balance_queries_swallow_errors :
  (forall (L : Type) (w : World) (c : Ctx L),
      exists q,
        fst (getSolBalance w c) = Ok q
        /\ (forall e, rpc_balance w = Throw e -> q = 0%Q)
        /\ (rpc_balance w = Ok 0%Z -> (q == 0)%Q))
  /\
  (forall (L : Type) (w : World) (mint : PublicKey) (c : Ctx L),
      exists q,
        fst (getTokenBalance w mint c) = Ok q
        /\ (token_lookup_fails w mint (publicKey (payer (this c))) -> q = 0%Q)
        /\ (forall ata d,
              derive_ata w mint (publicKey (payer (this c))) = Ok ata ->
              rpc_tokenBalance w = Ok (Some {| amount := 0; decimals := d |}) ->
              (q == 0)%Q)).
Proof.
  split.
  - intros L w c.
    unfold getSolBalance, try_catch, bind, get, emit, modify, lift, log, ret. cbn.
    destruct (rpc_balance w) as [lamports|e]; cbn.
    + eexists. split; [reflexivity|]. split; [discriminate|].
      intro H. apply Ok_inj in H. subst lamports. reflexivity.
    + destruct (disableLogs (this c)); cbn; eexists;
        (split; [reflexivity|]); split; try reflexivity; discriminate.
  - intros L w mint c.
    unfold getTokenBalance, token_lookup_fails, try_catch, bind, get, emit, modify,
      lift, log, ret, throw. cbn.
    destruct (derive_ata w mint (publicKey (payer (this c)))) as [ata|e1]; cbn.
    + destruct (rpc_tokenBalance w) as [[v|]|e2]; cbn.
      * eexists. split; [reflexivity|]. split.
        -- intros [[e H]|[[e H]|H]]; discriminate.
        -- intros ata' d _ H. apply Ok_inj in H.
           assert (Hv : v = {| amount := 0; decimals := d |}) by congruence.
           subst v. cbn [amount decimals]. reflexivity.
      * destruct (disableLogs (this c)); cbn; eexists;
          (split; [reflexivity|]); split; try reflexivity; discriminate.
      * destruct (disableLogs (this c)); cbn; eexists;
          (split; [reflexivity|]); split; try reflexivity; discriminate.
    + destruct (disableLogs (this c)); cbn; eexists;
        (split; [reflexivity|]); split; try reflexivity; discriminate.
Qed.

(** ** Trade sizes in the volume loop *)




Lemma scaled_floor_nonneg (x : Q) :
  (0 <= x)%Q -> (0 <= inject_Z (Qfloor (x * 1e9)) / 1e9)%Q.
Proof.
  intro H. apply Qle_shift_div_l; [reflexivity|]. rewrite Qmult_0_l.
  change 0%Q with (inject_Z 0). rewrite <- Zle_Qle.
  rewrite <- (Qfloor_Z 0). apply Qfloor_resp_le.
  change (inject_Z 0) with 0%Q.
  apply Qmult_le_0_compat; [exact H|discriminate].
Qed.


Lemma buy_amount_nonnegative r lo hi :
  unit_draw r -> (0 <= lo)%Q -> (lo <= hi)%Q ->
  (0 <= inject_Z (buyAmount r lo hi) / 1e9)%Q.
Proof.
  intros [H0 H1] Hlo Hhi. unfold buyAmount.
  apply scaled_floor_nonneg. nra.
Qed.

Lemma shouldSell_positive w l : shouldSell w l = true -> (0 < totalNetVolume l)%Q.
Proof.
  unfold shouldSell. rewrite andb_true_iff. intros [_ H].
  now apply Qltb_true.
Qed.


(** ** What a pass of the volume loop does to the counters *)

Lemma bind_after_preserved {S A B X} (f : S -> X) (P : X -> X -> Prop)
    (m : M S A) (k : A -> M S B) :
  preserves f m ->
  (forall x, P x x) ->
  (forall a s, P (f s) (f (snd (k a s)))) ->
  forall s, P (f s) (f (snd (bind m k s))).
Proof.
  intros Hm Hrefl Hk s. unfold bind. specialize (Hm s).
  destruct (m s) as [[a|e] s']; cbn [snd] in *; rewrite <- Hm.
  - apply Hk.
  - apply Hrefl.
Qed.

(** After [volume_bundle] the counters are untouched or hold the trade. *)
Lemma volume_bundle_locals w mint d amt dexes tip (c : Ctx VolumeLocals) :
  locals (snd (volume_bundle w mint d amt dexes tip c)) = locals c
  \/ locals (snd (volume_bundle w mint d amt dexes tip c))
     = record_trade d amt (locals c).
Proof.
  unfold volume_bundle. cbv zeta.
  set (P := fun x y : VolumeLocals => y = x \/ y = record_trade d amt x).
  match goal with
  | |- locals (snd (?m c)) = _ \/ _ => change (P (locals c) (locals (snd (m c))))
  end.
  revert c.
  assert (Hrefl : forall x, P x x) by (intro; left; reflexivity).
  apply bind_after_preserved; [apply preserves_get|exact Hrefl|]. intros c0.
  apply bind_after_preserved; [apply preserves_lift|exact Hrefl|]. intros fundTx.
  apply bind_after_preserved; [frame|exact Hrefl|]. intros swapTx.
  apply bind_after_preserved; [frame|exact Hrefl|]. intros reply s.
  destruct (bundle_result reply).
  - right. rewrite bind_observed; [reflexivity|].
    intros _. frame.
  - left. reflexivity.
Qed.

Lemma volume_iteration_locals w mint lo hi m speed dexes tip (c : Ctx VolumeLocals)
    (Q : VolumeLocals -> Prop) :
  let l := locals c in
  let l1 := set_tradesUntilNextSell (countdown_after w l) l in
  let trade := planned_trade w lo hi m l in
  Q l -> Q l1 -> Q (record_trade (fst trade) (snd trade) l1) ->
  Q (locals (snd (volume_iteration w mint lo hi m speed dexes tip c))).
Proof.
  intros l l1 trade Hl Hl1 Htrade. unfold volume_iteration.
  rewrite try_catch_observed by (intro e; frame).
  pose proof (volume_refresh_keeps_locals w c) as Href.
  unfold bind at 1. destruct (volume_refresh w c) as [[[]|e] s]; cbn [snd] in *.
  - unfold bind at 1. rewrite decideTrade_run. rewrite Href. fold l trade l1.
    rewrite bind_observed by (intros _; frame).
    destruct (volume_bundle_locals w mint (fst trade) (snd trade) dexes tip
                (with_locals s l1)) as [H|H]; rewrite H; cbn [with_locals locals];
      assumption.
  - rewrite Href. exact Hl.
Qed.



Ltac unit_draw_by_computation :=
  split; [apply Qle_bool_iff; reflexivity | apply Qltb_true; reflexivity].





(** What line 393 computes: a fraction between one half and one half plus
    half of [1 / mCapFactor]. *)
Lemma sellPercentage_range r m :
  unit_draw r -> (0 < m)%Q ->
  (0.5 <= sellPercentage r m
   /\ sellPercentage r m < 0.5 + 0.5 * maxSellPercentage m)%Q.
Proof.
  intros [H0 H1] Hm. unfold sellPercentage, maxSellPercentage.
  assert (Hinv : (0 < / m)%Q) by (apply Qinv_lt_0_compat; exact Hm).
  unfold Qdiv. rewrite Qmult_1_l. set (x := (/ m)%Q) in *. split; nra.
Qed.

(** C2 at [mCapFactor = 2], draw 0.5, net volume 1: the fraction sold is
    0.625, above [maxSellPercentage = 1 / mCapFactor = 0.5]; the amount
    sold, 625 000 000 lamports, is above the bound
    [net-volume * (1 / mCapFactor)] of 500 000 000 lamports. *)
Theorem sell_fraction_exceeds_cap :
  unit_draw 0.5 /\ (0 < 2)%Q /\ (0 < 1)%Q
  /\ (maxSellPercentage 2 == 0.5)%Q
  /\ (sellPercentage 0.5 2 == 0.625)%Q
  /\ ~ (sellPercentage 0.5 2 <= 1.0 * maxSellPercentage 2)%Q
  /\ ~ (1 * sellPercentage 0.5 2 <= 1 * maxSellPercentage 2)%Q
  /\ sellAmount 1 0.5 2 = 625000000%Z
  /\ Qfloor (1 * maxSellPercentage 2 * 1e9) = 500000000%Z.
Proof.
  split; [apply half_is_unit_draw|].
  repeat split; try reflexivity; intro H; vm_compute in H; apply H; reflexivity.
Qed.

(* ================================================================== *)
(** * Further properties of the helpers and the workflows *)

(** ** Which tip account and which relay a draw selects *)









(** ** When the funding builders succeed, and what they build *)





Lemma createVtx_inv ixs wallet bh tx :
  createVtxWithOnlyMainSigner ixs wallet bh = Ok tx ->
  bh <> ""
  /\ tx = {| payerKey := publicKey wallet; instructions := ixs;
             recentBlockhash := bh; signatures := [publicKey wallet] |}.
Proof.
  unfold createVtxWithOnlyMainSigner. destruct (String.eqb_spec bh "") as [->|Hne];
    [discriminate|].
  intro H. apply Ok_inj in H. split; [exact Hne|now subst].
Qed.

(** X3. A funding transaction, for four recipients or for one, is paid
    and signed by the payer alone, carries the blockhash it was given
    (never an empty one), and holds three instructions: compute-unit
    price 16666, compute-unit limit 600000, then the funding instruction
    of the AMM program, in which the payer is the only signer. Recipients
    after the fourth are ignored. *)
Theorem funding_transaction_envelope :
  forall (a : AMM) (r : Q) (pubkeys : list Keypair) (k : Keypair) (tip : Z)
         (bh : string) (tx : VersionedTransaction),
    (createFundTx a r pubkeys tip bh = Ok tx ->
     funding_envelope a bh tx
     /\ createFundTx a r (firstn 4 pubkeys) tip bh = Ok tx)
    /\
    (createFundSingleTx a r k tip bh = Ok tx -> funding_envelope a bh tx).
Proof.
  intros a r pubkeys k tip bh tx. split.
  - unfold createFundTx.
    destruct (getRandomJitoAccount r) as [acct|]; [|discriminate].
    destruct pubkeys as [|k0 [|k1 [|k2 [|k3 more]]]]; try discriminate.
    cbn [firstn].
    destruct (instructionData 0 tip) as [payload|e]; [|discriminate].
    intro H. split; [|exact H].
    apply createVtx_inv in H. destruct H as [Hbh ->].
    unfold funding_envelope. cbn [payerKey signatures recentBlockhash instructions].
    repeat split; try assumption.
    eexists. split; [reflexivity|]. split; reflexivity.
  - unfold createFundSingleTx.
    destruct (getRandomJitoAccount r) as [acct|]; [|discriminate].
    destruct (instructionData 3 tip) as [payload|e]; [|discriminate].
    intro H. apply createVtx_inv in H. destruct H as [Hbh ->].
    unfold funding_envelope. cbn [payerKey signatures recentBlockhash instructions].
    repeat split; try assumption.
    eexists. split; [reflexivity|]. split; reflexivity.
Qed.

Lemma funding_transaction_envelope_witness :
  funding_envelope (demo_amm "") demo_blockhash (unwrap demo_fund4)
  /\ funding_envelope (demo_amm "") demo_blockhash (unwrap demo_fund1).
Proof.
  split.
  - destruct (@funding_transaction_envelope (demo_amm "") 0.5
                [demo_keypair 0; demo_keypair 1; demo_keypair 2; demo_keypair 3]
                (demo_keypair 0) 100000 demo_blockhash (unwrap demo_fund4))
      as [H4 _].
    apply H4. vm_compute. reflexivity.
  - destruct (@funding_transaction_envelope (demo_amm "") 0.5
                [demo_keypair 0; demo_keypair 1; demo_keypair 2; demo_keypair 3]
                (demo_keypair 0) 100000 demo_blockhash (unwrap demo_fund1))
      as [_ H1].
    apply H1. vm_compute. reflexivity.
Defined.

(** X4. The account list of the one-recipient funding instruction is: the
    payer (signer, writable), the recipient, one tip account taken from
    [JITO_ACCOUNTS], [FEE_ACCOUNT_1], [FEE_ACCOUNT_2] (all writable, not
    signers), and the system program (read-only). *)
Theorem single_funding_accounts :
  forall (a : AMM) (r : Q) (k : Keypair) (tip : Z) (bh : string)
         (tx : VersionedTransaction),
    createFundSingleTx a r k tip bh = Ok tx ->
    exists ix jito,
      custom_instructions (instructions tx) = [ix]
      /\ In jito JITO_ACCOUNTS
      /\ keys ix =
         [ {| pubkey := publicKey (payer a); isSigner := true; isWritable := true |};
           {| pubkey := publicKey k; isSigner := false; isWritable := true |};
           {| pubkey := jito; isSigner := false; isWritable := true |};
           {| pubkey := FEE_ACCOUNT_1; isSigner := false; isWritable := true |};
           {| pubkey := FEE_ACCOUNT_2; isSigner := false; isWritable := true |};
           {| pubkey := SystemProgram_programId; isSigner := false;
              isWritable := false |} ].
Proof.
  intros a r k tip bh tx. unfold createFundSingleTx.
  destruct (getRandomJitoAccount r) as [jito|] eqn:Hj; [|discriminate].
  destruct (instructionData 3 tip) as [payload|e]; [|discriminate].
  intro H. apply createVtx_inv in H. destruct H as [_ ->].
  eexists. exists jito. cbn [instructions custom_instructions
                              getComputeBudgetInstructions app].
  split; [reflexivity|]. split; [|reflexivity].
  eapply getRandomJitoAccount_in; eassumption.
Qed.

Lemma single_funding_accounts_witness :
  exists ix jito,
    custom_instructions (instructions (unwrap demo_fund1)) = [ix]
    /\ In jito JITO_ACCOUNTS
    /\ keys ix =
       [ {| pubkey := publicKey (payer (demo_amm "")); isSigner := true;
            isWritable := true |};
         {| pubkey := publicKey (demo_keypair 0); isSigner := false;
            isWritable := true |};
         {| pubkey := jito; isSigner := false; isWritable := true |};
         {| pubkey := FEE_ACCOUNT_1; isSigner := false; isWritable := true |};
         {| pubkey := FEE_ACCOUNT_2; isSigner := false; isWritable := true |};
         {| pubkey := SystemProgram_programId; isSigner := false;
            isWritable := false |} ].
Proof.
  apply (@single_funding_accounts (demo_amm "") 0.5 (demo_keypair 0) 100000
           demo_blockhash (unwrap demo_fund1)).
  vm_compute. reflexivity.
Defined.

(** ** A pass of a loop never throws *)







(** ** Sizes and countdown of the volume trades *)



Lemma nextSellCountdown_range r :
  unit_draw r -> (1 <= nextSellCountdown r <= 3)%Z.
Proof.
  intro Hr. unfold nextSellCountdown.
  pose proof (@random_index_range r 3 Hr ltac:(lia)) as H.
  unfold random_index in H. change (inject_Z (Z.of_nat 3)) with 3%Q in H. lia.
Qed.

(** X8. [decideTrade] always returns. After it has decided a sell the
    countdown to the next sell is 1, 2 or 3; after it has decided a buy
    the countdown is one less than before. With a positive net volume
    and a countdown at or below zero the decision is a sell, whatever the
    trigger draw. *)
Theorem sell_countdown :
  forall w lo hi m (c : Ctx VolumeLocals),
    unit_draw (random_nextSell w) ->
    exists direction amt,
      fst (decideTrade w lo hi m c) = Ok (direction, amt)
      /\ (direction = sell ->
          (1 <= tradesUntilNextSell (locals (snd (decideTrade w lo hi m c))) <= 3)%Z)
      /\ (direction = buy ->
          tradesUntilNextSell (locals (snd (decideTrade w lo hi m c)))
          = (tradesUntilNextSell (locals c) - 1)%Z)
      /\ ((0 < totalNetVolume (locals c))%Q ->
          (tradesUntilNextSell (locals c) <= 0)%Z -> direction = sell).
Proof.
  intros w lo hi m c Hr. rewrite decideTrade_run.
  cbn [fst snd with_locals locals set_tradesUntilNextSell tradesUntilNextSell].
  unfold planned_trade, countdown_after.
  destruct (shouldSell w (locals c)) eqn:E.
  - eexists. eexists. split; [reflexivity|].
    split; [intros _; now apply nextSellCountdown_range|].
    split; [discriminate|reflexivity].
  - eexists. eexists. split; [reflexivity|].
    split; [discriminate|]. split; [reflexivity|].
    intros Hnet Hcount. exfalso. unfold shouldSell in E.
    apply Z.leb_le in Hcount. apply Qltb_true in Hnet.
    rewrite Hcount, Hnet in E. discriminate.
Qed.

Lemma sell_countdown_witness :
  exists direction amt,
    fst (decideTrade demo_world 1 1 1
           {| this := demo_amm ""; locals :=
                {| totalNetVolume := 1; totalRealVolume := 1;
                   tradesUntilNextSell := 0; startTime := 0; tradeCount := 1 |};
              trace := [] |}) = Ok (direction, amt)
    /\ direction = sell.
Proof.
  destruct (@sell_countdown demo_world 1 1 1
              {| this := demo_amm ""; locals :=
                   {| totalNetVolume := 1; totalRealVolume := 1;
                      tradesUntilNextSell := 0; startTime := 0; tradeCount := 1 |};
                 trace := [] |} half_is_unit_draw)
    as [direction [amt [H1 [_ [_ H4]]]]].
  exists direction, amt. split; [exact H1|].
  apply H4; [reflexivity|simpl; lia].
Defined.

(** ** The counters of the volume loop *)

Lemma sell_amount_nonnegative net r m :
  unit_draw r -> (0 < m)%Q -> (0 < net)%Q ->
  (0 <= inject_Z (sellAmount net r m) / 1e9)%Q.
Proof.
  intros Hr Hm Hnet. unfold sellAmount.
  destruct (sellPercentage_range Hr Hm) as [Hlo _].
  apply scaled_floor_nonneg.
  remember (sellPercentage r m) as sp eqn:E. clear E. nra.
Qed.

Lemma planned_trade_nonnegative w lo hi m l :
  (0 < m)%Q -> (0 <= lo)%Q -> (lo <= hi)%Q -> sizing_draws_ok w ->
  (0 <= inject_Z (snd (planned_trade w lo hi m l)) / 1e9)%Q.
Proof.
  intros Hm Hlo Hhi [Hs Hb]. unfold planned_trade.
  destruct (shouldSell w l) eqn:E; cbn [snd].
  - apply sell_amount_nonnegative; try assumption.
    now apply shouldSell_positive with (w := w).
  - now apply buy_amount_nonnegative.
Qed.

Lemma volume_iteration_accounts w mint lo hi m speed dexes tip
    (c : Ctx VolumeLocals) n :
  (0 < m)%Q -> (0 <= lo)%Q -> (lo <= hi)%Q -> sizing_draws_ok w ->
  volume_accounts n (locals c) ->
  volume_accounts (n + 1)
    (locals (snd (volume_iteration w mint lo hi m speed dexes tip c))).
Proof.
  intros Hm Hlo Hhi Hw [Hcount [Hneg Hpos]].
  apply (@volume_iteration_locals w mint lo hi m speed dexes tip c
           (volume_accounts (n + 1))).
  - unfold volume_accounts. repeat split; solve [lia | assumption].
  - unfold volume_accounts.
    cbn [set_tradesUntilNextSell tradeCount totalNetVolume totalRealVolume].
    repeat split; solve [lia | assumption].
  - pose proof (@planned_trade_nonnegative w lo hi m (locals c) Hm Hlo Hhi Hw) as Hamt.
    unfold volume_accounts, record_trade.
    cbn [set_tradesUntilNextSell tradeCount totalNetVolume totalRealVolume].
    remember (inject_Z (snd (planned_trade w lo hi m (locals c))) / 1e9)%Q
      as sol eqn:E. clear E.
    destruct (Direction_eqb (fst (planned_trade w lo hi m (locals c))) buy);
      repeat split; solve [lia | lra].
Qed.

Lemma volume_loop_accounts mint lo hi m speed dexes tip ws :
  (0 < m)%Q -> (0 <= lo)%Q -> (lo <= hi)%Q -> Forall sizing_draws_ok ws ->
  forall (n : Z) (c : Ctx VolumeLocals),
    volume_accounts n (locals c) ->
    volume_accounts (n + Z.of_nat (length ws))
      (locals (volume_loop ws mint lo hi m speed dexes tip c)).
Proof.
  intros Hm Hlo Hhi Hws.
  induction Hws as [|w rest Hw _ IH]; intros n c Hc.
  - cbn [volume_loop length]. rewrite Z.add_0_r. exact Hc.
  - cbn [volume_loop length].
    replace (n + Z.of_nat (S (length rest)))%Z
      with ((n + 1) + Z.of_nat (length rest))%Z by lia.
    apply IH. now apply volume_iteration_accounts.
Qed.

(** X9. In a run of [volume] with a positive [mCapFactor] and
    [0 <= minSolPerSwap <= maxSolPerSwap], after any number of passes the
    trade counter is between 0 and the number of passes made, and the
    gross volume bounds the net volume from both sides:
    [-gross <= net <= gross]. *)
Theorem volume_counters :
  forall (w0 : World) (ws : list World) (a : AMM) (mint : PublicKey)
         (minSolPerSwap maxSolPerSwap mCapFactor speedFactor : Q)
         (options : Options),
    (0 < mCapFactor)%Q ->
    (0 <= minSolPerSwap)%Q ->
    (minSolPerSwap <= maxSolPerSwap)%Q ->
    Forall sizing_draws_ok ws ->
    let l := locals (volume w0 ws a mint minSolPerSwap maxSolPerSwap mCapFactor
                       speedFactor options) in
    (0 <= tradeCount l <= Z.of_nat (length ws))%Z
    /\ (- totalRealVolume l <= totalNetVolume l)%Q
    /\ (totalNetVolume l <= totalRealVolume l)%Q.
Proof.
  intros w0 ws a mint lo hi m speed options Hm Hlo Hhi Hws. cbv zeta.
  unfold volume.
  apply (@volume_loop_accounts mint lo hi m speed (dexes_of options)
           (tip_or options 1000000) ws Hm Hlo Hhi Hws 0).
  unfold volume_accounts. cbn [locals tradeCount totalNetVolume totalRealVolume].
  repeat split; solve [lia | discriminate].
Qed.

Lemma volume_counters_witness :
  let l := locals (volume demo_world [demo_world; demo_world] (demo_amm "") "mint"
                     1 1 1 1 no_options) in
  (0 <= tradeCount l <= Z.of_nat 2)%Z
  /\ (- totalRealVolume l <= totalNetVolume l)%Q
  /\ (totalNetVolume l <= totalRealVolume l)%Q.
Proof.
  apply (@volume_counters demo_world [demo_world; demo_world] (demo_amm "") "mint"
           1 1 1 1 no_options).
  - reflexivity.
  - apply Qle_bool_iff. reflexivity.
  - apply Qle_bool_iff. reflexivity.
  - repeat constructor; solve [apply Qle_bool_iff; reflexivity
                              | apply Qltb_true; reflexivity].
Defined.

(** ** What [makers] returns, whatever happened on the way *)

Lemma makers_bundle_locals w mint total dexes tip (c : Ctx MakerStats) :
  locals (snd (makers_bundle w mint total dexes tip c)) = locals c
  \/ exists id,
       locals (snd (makers_bundle w mint total dexes tip c))
       = record_bundle total id 4 (locals c).
Proof.
  unfold makers_bundle. cbv zeta. cbn [map seq combine length].
  set (P := fun x y : MakerStats =>
              y = x \/ exists id, y = record_bundle total id 4 x).
  match goal with
  | |- locals (snd (?m c)) = _ \/ _ => change (P (locals c) (locals (snd (m c))))
  end.
  revert c.
  assert (Hrefl : forall x, P x x) by (intro; left; reflexivity).
  apply bind_after_preserved; [apply preserves_get|exact Hrefl|]. intros c0.
  apply bind_after_preserved; [apply preserves_lift|exact Hrefl|]. intros fundTx.
  apply bind_after_preserved;
    [apply preserves_sequence; repeat (apply Forall_cons; [frame|]); apply Forall_nil
    |exact Hrefl|].
  intros swapTxs.
  apply bind_after_preserved; [frame|exact Hrefl|]. intros reply s.
  destruct (bundle_result reply) as [id|].
  - right. exists id. rewrite bind_observed; [reflexivity|].
    intros _. frame.
  - left. reflexivity.
Qed.

Lemma makers_iteration_locals w mint total dexes tip (c : Ctx MakerStats)
    (Q : MakerStats -> Prop) :
  Q (locals c) ->
  (forall id, Q (record_bundle total id 4 (locals c))) ->
  Q (locals (snd (makers_iteration w mint total dexes tip c))).
Proof.
  intros Hsame Hbooked. unfold makers_iteration.
  rewrite try_catch_observed by (intro e; frame).
  pose proof (makers_refresh_keeps_locals w c) as Href.
  unfold bind at 1. destruct (makers_refresh w c) as [[[]|e] s]; cbn [snd] in *.
  - destruct (makers_bundle_locals w mint total dexes tip s) as [H|[id H]];
      rewrite H, Href; [exact Hsame|apply Hbooked].
  - rewrite Href. exact Hsame.
Qed.

Lemma makers_loop_accounts mint total dexes tip ws :
  forall (passes : nat) (c c' : Ctx MakerStats) (passes' : nat) (n : Z),
    maker_accounts total n (locals c) ->
    makers_loop ws mint total dexes tip passes c = Some (c', passes') ->
    maker_accounts total (n + Z.of_nat (passes' - passes)) (locals c')
    /\ (total <= makersCompleted (locals c'))%Z
    /\ (passes <= passes' <= passes + length ws)%nat
    /\ finished (locals c') = finished (locals c).
Proof.
  induction ws as [|w rest IH]; intros passes c c' passes' n Hc Hrun;
    cbn [makers_loop] in Hrun;
    destruct (Z.ltb_spec (makersCompleted (locals c)) total) as [Hlt|Hge];
    try discriminate.
  - injection Hrun as <- <-. rewrite Nat.sub_diag, Z.add_0_r.
    split; [exact Hc|]. repeat split; solve [assumption | lia].
  - apply (IH _ _ _ _ (n + 1)%Z) in Hrun.
    + destruct Hrun as [Hacc [Hdone [Hp Hfin]]].
      replace (n + Z.of_nat (passes' - passes))%Z
        with (n + 1 + Z.of_nat (passes' - S passes))%Z by lia.
      split; [exact Hacc|]. split; [exact Hdone|]. split; [cbn [length]; lia|].
      rewrite Hfin.
      apply (@makers_iteration_locals w mint total dexes tip c
               (fun s => finished s = finished (locals c))); reflexivity.
    + apply (@makers_iteration_locals w mint total dexes tip c
               (maker_accounts total (n + 1))).
      * destruct Hc as [[H1 [H2 [H3 H4]]] H5].
        repeat split; solve [assumption | lia].
      * intro id. destruct Hc as [[H1 [H2 [H3 H4]]] H5].
        unfold maker_accounts, record_bundle.
        cbn [makersCompleted bundleCount makersRemaining latestBundleId].
        change (Z.of_nat 4) with 4%Z.
        repeat split; try lia. right. discriminate.
  - injection Hrun as <- <-. rewrite Nat.sub_diag, Z.add_0_r.
    split; [exact Hc|]. repeat split; solve [assumption | lia].
Qed.

(** X10. Whatever the outside world did on the way, when
    [makers(mint, totalMakersRequired, options)] returns its statistics
    satisfy: [finished] is set; [makersCompleted = 4 * bundleCount];
    [makersRemaining = totalMakersRequired - makersCompleted];
    [totalMakersRequired <= makersCompleted < max(totalMakersRequired, 0) + 4]
    (so [makersCompleted] is the required count rounded up to a multiple
    of four); a bundle id is recorded unless no bundle was needed; and
    [bundleCount] is at most the number of passes made. *)
Theorem makers_result :
  forall (ws : list World) (a : AMM) (mint : PublicKey) (total : Z)
         (options : Options) (c : Ctx MakerStats) (passes : nat),
    makers ws a mint total options = Some (c, passes) ->
    finished (locals c) = true
    /\ (makersCompleted (locals c) = 4 * bundleCount (locals c)
        /\ makersRemaining (locals c) = total - makersCompleted (locals c)
        /\ total <= makersCompleted (locals c) < Z.max total 0 + 4
        /\ 0 <= bundleCount (locals c) <= Z.of_nat passes)%Z
    /\ (bundleCount (locals c) = 0%Z \/ latestBundleId (locals c) <> None)
    /\ (passes <= length ws)%nat.
Proof.
  intros ws a mint total options c passes. unfold makers.
  match goal with
  | |- context [makers_loop ws mint total ?dexes ?tip 0 ?c1] =>
      destruct (makers_loop ws mint total dexes tip 0 c1) as [[c2 p2]|] eqn:Hrun;
      [|discriminate];
      assert (H1 : maker_accounts total 0 (locals c1))
  end.
  { rewrite log_keeps_locals. unfold maker_accounts.
    cbn [locals makersCompleted bundleCount makersRemaining latestBundleId].
    repeat split; lia. }
  intro H. injection H as <- <-.
  apply (makers_loop_accounts _ _ _ _ _ _ H1) in Hrun.
  destruct Hrun as [[[A1 [A2 [A3 A4]]] A5] [Hdone [Hp _]]].
  rewrite Nat.sub_0_r, Z.add_0_l in A2.
  cbn [locals set_finished finished makersCompleted bundleCount makersRemaining
         latestBundleId].
  repeat split; solve [assumption | lia].
Qed.

Lemma makers_result_witness :
  exists c passes,
    makers [routeless_world; demo_world; demo_world] (demo_amm "") "mint" 6
      no_options = Some (c, passes)
    /\ finished (locals c) = true
    /\ (makersCompleted (locals c) = 4 * bundleCount (locals c)
        /\ makersRemaining (locals c) = 6 - makersCompleted (locals c)
        /\ 6 <= makersCompleted (locals c) < Z.max 6 0 + 4
        /\ 0 <= bundleCount (locals c) <= Z.of_nat passes)%Z.
Proof.
  destruct (makers [routeless_world; demo_world; demo_world] (demo_amm "") "mint" 6
              no_options) as [[c passes]|] eqn:E; [|vm_compute in E; discriminate].
  exists c, passes. split; [reflexivity|].
  destruct (@makers_result [routeless_world; demo_world; demo_world] (demo_amm "")
              "mint" 6 no_options c passes E) as [H1 [H2 _]].
  split; assumption.
Defined.

(** ** The bundles a pass submits *)

Lemma sent_snoc {L} (a : AMM) (l : L) tr e :
  sent {| this := a; locals := l; trace := tr ++ [e] |}
  = (sent {| this := a; locals := l; trace := tr |}
     ++ (if is_send e then [e] else []))%list.
Proof. unfold sent. cbn [trace]. rewrite filter_app. reflexivity. Qed.

Lemma waits_snoc {L} (a : AMM) (l : L) tr e :
  waits {| this := a; locals := l; trace := tr ++ [e] |}
  = (waits {| this := a; locals := l; trace := tr |}
     ++ (if is_wait e then [e] else []))%list.
Proof. unfold waits. cbn [trace]. rewrite filter_app. reflexivity. Qed.

Ltac observe_lists :=
  intros; try reflexivity;
  match goal with
  | c : Ctx _ |- _ =>
      destruct c; cbn [this locals trace];
      first [rewrite sent_snoc | rewrite waits_snoc]; cbn; apply app_nil_r
  end.

Ltac frame_lists_step :=
  match goal with
  | |- forall _, _ => intro
  | |- preserves _ (bind _ _) => apply preserves_bind
  | |- preserves _ (try_catch _ _) => apply preserves_try_catch
  | |- preserves _ (ret _) => apply preserves_ret
  | |- preserves _ (throw _) => apply preserves_throw
  | |- preserves _ (lift _) => apply preserves_lift
  | |- preserves _ get => apply preserves_get
  | |- preserves _ (modify _) => apply preserves_modify; observe_lists
  | |- preserves _ (sequence _) => apply preserves_sequence
  | |- Forall _ (map _ _) => apply Forall_map, Forall_forall
  | |- preserves _ (match ?x with _ => _ end) => destruct x
  end.

Ltac frame_lists :=
  cbv zeta;
  unfold makers_refresh, volume_refresh, decideTrade, initializeBlockhash;
  unfold swapMakers, swapVolume, quote_and_build, getSolBalance, getTokenBalance,
         sendBundle, getLatestBlockhash, wait, log, emit, set_locals, set_this;
  repeat frame_lists_step.

Lemma fst_bind_ok_inv {S A B} (m : M S A) (k : A -> M S B) s b :
  fst (bind m k s) = Ok b ->
  exists a, fst (m s) = Ok a /\ fst (k a (snd (m s))) = Ok b.
Proof.
  unfold bind. destruct (m s) as [[a|e] s1]; cbn [fst snd]; [|discriminate].
  intro H. exists a. split; [reflexivity|exact H].
Qed.

Lemma sequence_map_inv {S K A} (f : K -> M S A) (R : K -> A -> Prop) :
  (forall k s a, fst (f k s) = Ok a -> R k a) ->
  forall ks s l, fst (sequence (map f ks) s) = Ok l -> Forall2 R ks l.
Proof.
  intros Hf. induction ks as [|k ks IH]; intros s l H; cbn [map sequence] in H.
  - apply Ok_inj in H. subst l. constructor.
  - apply fst_bind_ok_inv in H. destruct H as [a [Ha H]].
    apply fst_bind_ok_inv in H. destruct H as [rest [Hrest H]].
    apply Ok_inj in H. subst l. constructor.
    + eapply Hf. exact Ha.
    + eapply IH. exact Hrest.
Qed.

Lemma quote_and_build_inv {L} w n req signer bh (c : Ctx L) tx :
  fst (quote_and_build w n req signer bh c) = Ok tx ->
  recentBlockhash tx = bh /\ signatures tx = [publicKey signer].
Proof.
  unfold quote_and_build, bind, emit, modify, lift, throw, ret. cbn.
  destruct (agg_quote w n) as [[[[|route more]|]]|e1]; cbn; try discriminate.
  destruct (agg_swap w n) as [[[swapTx|]]|e2]; cbn; try discriminate.
  intro H. apply Ok_inj in H. subst tx. split; reflexivity.
Qed.

Lemma getRandomJitoUrl_in r u : getRandomJitoUrl r = Some u -> In u JITO_URLS.
Proof.
  unfold getRandomJitoUrl, js_index.
  destruct (_ <? 0)%Z; [discriminate|]. apply nth_error_In.
Qed.

Lemma createFundTx_funds a r k0 k1 k2 k3 more tip bh tx :
  createFundTx a r (k0 :: k1 :: k2 :: k3 :: more) tip bh = Ok tx ->
  funded_accounts tx = [publicKey k0; publicKey k1; publicKey k2; publicKey k3]
  /\ recentBlockhash tx = bh /\ bh <> ""
  /\ signatures tx = [payerKey tx].
Proof.
  unfold createFundTx.
  destruct (getRandomJitoAccount r) as [acct|]; [|discriminate].
  destruct (instructionData 0 tip) as [payload|e]; [|discriminate].
  intro H. apply createVtx_inv in H. destruct H as [Hbh ->].
  repeat split; try assumption.
Qed.

Lemma createFundSingleTx_funds a r k tip bh tx :
  createFundSingleTx a r k tip bh = Ok tx ->
  funded_accounts tx = [publicKey k]
  /\ recentBlockhash tx = bh /\ bh <> ""
  /\ signatures tx = [payerKey tx].
Proof.
  unfold createFundSingleTx.
  destruct (getRandomJitoAccount r) as [acct|]; [|discriminate].
  destruct (instructionData 3 tip) as [payload|e]; [|discriminate].
  intro H. apply createVtx_inv in H. destruct H as [Hbh ->].
  repeat split; try assumption.
Qed.

(** After [makers_bundle] either no bundle was submitted or exactly one,
    a consistent one on the cached blockhash. *)
Lemma makers_bundle_sent w mint total dexes tip (c : Ctx MakerStats)
    (Q : list Event -> Prop) :
  Q (sent c) ->
  (forall e, consistent_bundle (blockhash (this c)) 4 e -> Q (sent c ++ [e])%list) ->
  Q (sent (snd (makers_bundle w mint total dexes tip c))).
Proof.
  intros Hnone Hone.
  unfold makers_bundle. cbv zeta. cbn [map seq combine length].
  unfold bind at 1. cbn [get].
  unfold bind at 1. cbn [lift].
  destruct (createFundTx (this c) (random_jitoAccount w)
              [fresh_keypair w 0; fresh_keypair w 1; fresh_keypair w 2;
               fresh_keypair w 3] tip (blockhash (this c)))
    as [fundTx|e] eqn:Hfund; [|exact Hnone].
  apply createFundTx_funds in Hfund. destruct Hfund as [Hrec [Hbh [Hne Hsig]]].
  set (f := fun ns : nat * Keypair =>
              swapMakers (L:=MakerStats) w (fst ns) buy mint (snd ns)
                (blockhash (this c)) dexes).
  set (ks := [(0%nat, fresh_keypair w 0); (1%nat, fresh_keypair w 1);
              (2%nat, fresh_keypair w 2); (3%nat, fresh_keypair w 3)]).
  match goal with
  | |- context [sequence ?ms] => change ms with (map f ks)
  end.
  assert (Hseq : sent (snd (sequence (map f ks) c)) = sent c).
  { apply (@preserves_sequence _ _ (@sent MakerStats)).
    unfold ks, f. cbn [map fst snd].
    repeat (apply Forall_cons; [frame_lists|]). apply Forall_nil. }
  unfold bind at 1.
  destruct (sequence (map f ks) c) as [[swapTxs|e] s1] eqn:Hrun;
    cbn [snd] in Hseq; [|cbn [snd]; rewrite Hseq; exact Hnone].
  assert (Hswaps : Forall2 (fun (ns : nat * Keypair) tx =>
                              recentBlockhash tx = blockhash (this c)
                              /\ signatures tx = [publicKey (snd ns)]) ks swapTxs).
  { apply (@sequence_map_inv _ _ _ f) with (s := c).
    - intros ns s a Ha. unfold f, swapMakers in Ha.
      now apply quote_and_build_inv in Ha.
    - rewrite Hrun. reflexivity. }
  destruct (getRandomJitoUrl (random_jitoUrl w)) as [u|] eqn:Hu;
    [|unfold bind, sendBundle, throw; cbn [snd]; rewrite Hseq; exact Hnone].
  rewrite bind_observed by (intro reply; frame_lists).
  rewrite sendBundle_run. cbn [snd]. destruct s1 as [a1 l1 tr1].
  cbn [this locals trace] in *. rewrite sent_snoc. cbn [is_send].
  rewrite Hseq. apply Hone.
  unfold ks in Hswaps.
  inversion Hswaps as [|? t0 ? r0 [B0 S0] H0]; subst.
  inversion H0 as [|? t1 ? r1 [B1 S1] H1]; subst.
  inversion H1 as [|? t2 ? r2 [B2 S2] H2]; subst.
  inversion H2 as [|? t3 ? r3 [B3 S3] H3]; subst.
  inversion H3; subst. cbn [snd] in *.
  unfold consistent_bundle.
  split; [eapply getRandomJitoUrl_in; eassumption|].
  split; [assumption|]. split; [reflexivity|].
  split; [repeat constructor; assumption|].
  split; [assumption|].
  rewrite Hrec. cbn [map]. now rewrite S0, S1, S2, S3.
Qed.

Lemma makers_refresh_fresh w (c s1 : Ctx MakerStats) :
  makers_refresh w c = (Ok tt, s1) ->
  (bundleCount (locals c) - lastBlockhashRefresh (this s1) < 10)%Z.
Proof.
  unfold makers_refresh, getLatestBlockhash, bind, get, emit, set_this, modify,
    lift, ret. cbn.
  destruct (makers_stale c) eqn:E.
  - destruct (rpc_latestBlockhash w) as [bh|e]; cbn; [|discriminate].
    intro H. injection H as <-. cbn. lia.
  - intro H. injection H as <-.
    unfold makers_stale in E. apply orb_false_iff in E. destruct E as [_ E].
    apply Z.leb_gt in E. exact E.
Qed.

Lemma makers_iteration_sent w mint total dexes tip (c : Ctx MakerStats)
    (Q : list Event -> Prop) :
  let c' := snd (makers_iteration w mint total dexes tip c) in
  Q (sent c) ->
  (forall e,
      consistent_bundle (blockhash (this c')) 4 e ->
      (bundleCount (locals c) - lastBlockhashRefresh (this c') < 10)%Z ->
      Q (sent c ++ [e])%list) ->
  Q (sent c').
Proof.
  intros c' Hnone Hone.
  assert (Hthis : this c' = this (snd (makers_refresh w c))).
  { unfold c', makers_iteration.
    rewrite try_catch_observed by (intro e; frame).
    apply bind_observed. intros _. apply makers_bundle_keeps_this. }
  revert Hone. rewrite Hthis. clear Hthis. intro Hone.
  unfold c', makers_iteration.
  rewrite try_catch_observed by (intro e; frame_lists).
  assert (Href : sent (snd (makers_refresh w c)) = sent c)
    by (generalize c; change (preserves (@sent MakerStats) (makers_refresh w));
        frame_lists).
  unfold bind at 1.
  destruct (makers_refresh w c) as [[[]|e] s1] eqn:Erun; cbn [snd] in *.
  - apply makers_refresh_fresh in Erun.
    apply makers_bundle_sent; rewrite Href; [exact Hnone|].
    intros e He. now apply Hone.
  - rewrite Href. exact Hnone.
Qed.


(** X15. Every bundle a pass of the maker loop submits is consistent: a
    funding transaction followed by four swap transactions, all five on
    the cached (non-empty) blockhash, sent to one of the configured relay
    endpoints; the funding transaction is signed by its payer, and the
    four swap transactions are signed, in order, by the four accounts the
    funding transaction funds. *)
Theorem maker_bundles_consistent :
  forall w mint total dexes tip (c : Ctx MakerStats),
    let c' := snd (makers_iteration w mint total dexes tip c) in
    sent c' = sent c
    \/ exists e,
         sent c' = (sent c ++ [e])%list
         /\ consistent_bundle (blockhash (this c')) 4 e.
Proof.
  intros w mint total dexes tip c c'.
  apply (@makers_iteration_sent w mint total dexes tip c
           (fun l => l = sent c
                     \/ exists e, l = (sent c ++ [e])%list
                                  /\ consistent_bundle (blockhash (this c')) 4 e)).
  - left. reflexivity.
  - intros e He _. right. exists e. split; [reflexivity|exact He].
Qed.

Example maker_pass_sends_a_consistent_bundle :
  exists e,
    sent (snd (makers_iteration demo_world "mint" 8 "" 100000
                 {| this := demo_amm "";
                    locals := {| makersCompleted := 0; makersRemaining := 8;
                                 bundleCount := 0; latestBundleId := None;
                                 finished := false |};
                    trace := [] |})) = [e]
    /\ consistent_bundle demo_blockhash 4 e.
Proof.
  eexists. split; [vm_compute; reflexivity|].
  unfold consistent_bundle.
  split; [cbn; tauto|]. split; [discriminate|]. repeat split.
  repeat constructor.
Qed.

(** ** A bundle the relay does not acknowledge *)

Lemma makers_bundle_refused w mint total dexes tip (c : Ctx MakerStats) reply :
  draws_ok w -> (forall n, aggregator_answers w n) -> tip_encodable tip ->
  blockhash (this c) <> "" ->
  relay_response w = Ok reply -> bundle_result reply = None ->
  fst (makers_bundle w mint total dexes tip c) = Ok tt
  /\ locals (snd (makers_bundle w mint total dexes tip c)) = locals c
  /\ waits (snd (makers_bundle w mint total dexes tip c)) = waits c
  /\ exists e, sent (snd (makers_bundle w mint total dexes tip c))
               = (sent c ++ [e])%list.
Proof.
  intros [Hja Hju] Hagg Htip Hbh Hrelay Hnone.
  unfold makers_bundle. cbv zeta. cbn [map seq combine fst snd length].
  step (eq_refl : fst (get c) = Ok c). cbn [get snd].
  destruct (@createFundTx_ok (this c) (random_jitoAccount w)
              (fresh_keypair w 0) (fresh_keypair w 1) (fresh_keypair w 2)
              (fresh_keypair w 3) [] tip (blockhash (this c)) Hja Htip Hbh)
    as [fundTx HfundTx].
  rewrite HfundTx.
  step (eq_refl : fst (lift (Ok fundTx) c) = Ok fundTx). cbn [lift snd].
  destruct (getRandomJitoUrl_some Hju) as [u ->].
  match goal with
  | |- context [bind (sequence ?ms) _ c] =>
      destruct (@sequence_ok _ _ ms) with (c := c) as [swapTxs Hswaps];
      [ repeat (apply Forall_cons;
                [intro c0; unfold swapMakers; apply quote_and_build_ok, Hagg|]);
        apply Forall_nil
      | assert (Hl : locals (snd (sequence ms c)) = locals c)
          by (apply (@preserves_sequence _ _ (@locals MakerStats) _ ms);
              repeat (apply Forall_cons; [frame|]); apply Forall_nil);
        assert (Hs : sent (snd (sequence ms c)) = sent c)
          by (apply (@preserves_sequence _ _ (@sent MakerStats) _ ms);
              repeat (apply Forall_cons; [frame_lists|]); apply Forall_nil);
        assert (Hw : waits (snd (sequence ms c)) = waits c)
          by (apply (@preserves_sequence _ _ (@waits MakerStats) _ ms);
              repeat (apply Forall_cons; [frame_lists|]); apply Forall_nil);
        step Hswaps; generalize dependent (snd (sequence ms c)) ]
  end.
  intros s1 Hl Hs Hw.
  assert (Hsend : fst (sendBundle w (fundTx :: swapTxs) (Some u) s1) = Ok reply)
    by (rewrite sendBundle_run; exact Hrelay).
  step Hsend. rewrite sendBundle_run. cbn [snd]. rewrite Hnone.
  cbn [ret fst snd locals]. destruct s1 as [a1 l1 tr1]. cbn [this locals trace] in *.
  split; [reflexivity|]. split; [exact Hl|]. split.
  - rewrite waits_snoc. cbn [is_wait]. now rewrite app_nil_r.
  - eexists. rewrite sent_snoc. cbn [is_send]. now rewrite Hs.
Qed.

(** X12. When everything up to the submission works and the relay's
    reply carries no result, the maker pass ends normally with one more
    bundle submitted, the statistics untouched and no wait made: the loop
    goes straight into its next pass, without the 5000 ms pause an error
    gets. *)
Theorem maker_pass_with_refused_bundle :
  forall w mint total dexes tip (c : Ctx MakerStats) reply,
    draws_ok w -> (forall n, aggregator_answers w n) -> tip_encodable tip ->
    (makers_stale c = true -> chain_answers w) ->
    relay_response w = Ok reply -> bundle_result reply = None ->
    let c' := snd (makers_iteration w mint total dexes tip c) in
    fst (makers_iteration w mint total dexes tip c) = Ok tt
    /\ locals c' = locals c
    /\ waits c' = waits c
    /\ exists e, sent c' = (sent c ++ [e])%list.
Proof.
  intros w mint total dexes tip c reply Hd Hagg Htip Hchain Hrelay Hnone c'.
  destruct (makers_refresh_ok c Hchain) as [Href Hbh].
  destruct (@makers_bundle_refused w mint total dexes tip
              (snd (makers_refresh w c)) reply Hd Hagg Htip Hbh Hrelay Hnone)
    as [Hok [Hloc [Hwait [e Hsent]]]].
  assert (Hbody : fst ((makers_refresh w ;; makers_bundle w mint total dexes tip)%js c)
                  = Ok tt)
    by (rewrite (bind_run _ _ _ Href); exact Hok).
  unfold c', makers_iteration.
  rewrite (try_catch_ok _ _ _ Hbody). cbn [fst snd].
  rewrite (bind_run _ _ _ Href).
  split; [reflexivity|].
  split; [rewrite Hloc; apply makers_refresh_keeps_locals|].
  split.
  - rewrite Hwait. generalize c.
    change (preserves (@waits MakerStats) (makers_refresh w)). frame_lists.
  - exists e. rewrite Hsent. f_equal. generalize c.
    change (preserves (@sent MakerStats) (makers_refresh w)). frame_lists.
Qed.

Lemma maker_pass_with_refused_bundle_witness :
  let w := with_relay demo_world (Ok (Some {| result := None; error := Some "x" |})) in
  let c := {| this := demo_amm "";
              locals := {| makersCompleted := 0; makersRemaining := 8;
                           bundleCount := 0; latestBundleId := None;
                           finished := false |};
              trace := [] |} in
  let c' := snd (makers_iteration w "mint" 8 "" 100000 c) in
  fst (makers_iteration w "mint" 8 "" 100000 c) = Ok tt
  /\ locals c' = locals c
  /\ waits c' = waits c
  /\ exists e, sent c' = (sent c ++ [e])%list.
Proof.
  cbv zeta.
  apply (@maker_pass_with_refused_bundle
           (with_relay demo_world (Ok (Some {| result := None; error := Some "x" |})))
           "mint" 8 "" 100000 _ (Some {| result := None; error := Some "x" |})).
  - split; apply half_is_unit_draw.
  - apply demo_world_succeeds.
  - unfold tip_encodable. simpl. lia.
  - intros _. exists demo_blockhash. split; [reflexivity|discriminate].
  - reflexivity.
  - reflexivity.
Defined.

(** ** The bundles of the volume loop and of the one-shot swap *)

Lemma volume_bundle_sent w mint d amt dexes tip (c : Ctx VolumeLocals)
    (Q : list Event -> Prop) :
  Q (sent c) ->
  (forall e, consistent_bundle (blockhash (this c)) 1 e -> Q (sent c ++ [e])%list) ->
  Q (sent (snd (volume_bundle w mint d amt dexes tip c))).
Proof.
  intros Hnone Hone.
  unfold volume_bundle. cbv zeta.
  unfold bind at 1. cbn [get].
  unfold bind at 1. cbn [lift].
  destruct (createFundSingleTx (this c) (random_jitoAccount w) (fresh_keypair w 0)
              tip (blockhash (this c))) as [fundTx|e] eqn:Hfund; [|exact Hnone].
  apply createFundSingleTx_funds in Hfund.
  destruct Hfund as [Hrec [Hbh [Hne Hsig]]].
  set (sw := swapVolume (L:=VolumeLocals) w d mint (inject_Z amt)
               (blockhash (this c)) (fresh_keypair w 0) dexes).
  assert (Hseq : sent (snd (sw c)) = sent c)
    by (generalize c; change (preserves (@sent VolumeLocals) sw); unfold sw;
        frame_lists).
  unfold bind at 1.
  destruct (sw c) as [[swapTx|e] s1] eqn:Hrun; cbn [snd] in Hseq;
    [|cbn [snd]; rewrite Hseq; exact Hnone].
  assert (Hswap : recentBlockhash swapTx = blockhash (this c)
                  /\ signatures swapTx = [publicKey (fresh_keypair w 0)]).
  { apply (@quote_and_build_inv VolumeLocals w 0
             {| inputMint := if Direction_eqb d buy then WSOL_MINT else mint;
                outputMint := if Direction_eqb d buy then mint else WSOL_MINT;
                quote_amount := inject_Z amt;
                swapMode := if Direction_eqb d buy then ExactIn else ExactOut;
                quote_dexes := dexes |} (fresh_keypair w 0) (blockhash (this c)) c).
    change (fst (sw c) = Ok swapTx). rewrite Hrun. reflexivity. }
  destruct Hswap as [B0 S0].
  destruct (getRandomJitoUrl (random_jitoUrl w)) as [u|] eqn:Hu;
    [|unfold bind, sendBundle, throw; cbn [snd]; rewrite Hseq; exact Hnone].
  rewrite bind_observed by (intro reply; frame_lists).
  rewrite sendBundle_run. cbn [snd]. destruct s1 as [a1 l1 tr1].
  cbn [this locals trace] in *. rewrite sent_snoc. cbn [is_send].
  rewrite Hseq. apply Hone.
  unfold consistent_bundle.
  split; [eapply getRandomJitoUrl_in; eassumption|].
  split; [assumption|]. split; [reflexivity|].
  split; [repeat constructor; assumption|].
  split; [assumption|].
  rewrite Hrec. cbn [map]. now rewrite S0.
Qed.

Lemma swap_attempt_sent w mint d amt tip dexes (c : Ctx unit)
    (Q : list Event -> Prop) :
  Q (sent c) ->
  (forall e, consistent_bundle (blockhash (this c)) 1 e -> Q (sent c ++ [e])%list) ->
  Q (sent (snd (swap_attempt w mint d amt tip dexes c))).
Proof.
  intros Hnone Hone.
  unfold swap_attempt. cbv zeta.
  unfold bind at 1. cbn [get].
  unfold bind at 1. cbn [lift].
  destruct (createFundSingleTx (this c) (random_jitoAccount w) (fresh_keypair w 0)
              tip (blockhash (this c))) as [fundTx|e] eqn:Hfund; [|exact Hnone].
  apply createFundSingleTx_funds in Hfund.
  destruct Hfund as [Hrec [Hbh [Hne Hsig]]].
  set (sw := swapVolume (L:=unit) w d mint (amt * 1e9)%Q
               (blockhash (this c)) (fresh_keypair w 0) dexes).
  assert (Hseq : sent (snd (sw c)) = sent c)
    by (generalize c; change (preserves (@sent unit) sw); unfold sw; frame_lists).
  unfold bind at 1.
  destruct (sw c) as [[swapTx|e] s1] eqn:Hrun; cbn [snd] in Hseq;
    [|cbn [snd]; rewrite Hseq; exact Hnone].
  assert (Hswap : recentBlockhash swapTx = blockhash (this c)
                  /\ signatures swapTx = [publicKey (fresh_keypair w 0)]).
  { apply (@quote_and_build_inv unit w 0
             {| inputMint := if Direction_eqb d buy then WSOL_MINT else mint;
                outputMint := if Direction_eqb d buy then mint else WSOL_MINT;
                quote_amount := (amt * 1e9)%Q;
                swapMode := if Direction_eqb d buy then ExactIn else ExactOut;
                quote_dexes := dexes |} (fresh_keypair w 0) (blockhash (this c)) c).
    change (fst (sw c) = Ok swapTx). rewrite Hrun. reflexivity. }
  destruct Hswap as [B0 S0].
  destruct (getRandomJitoUrl (random_jitoUrl w)) as [u|] eqn:Hu;
    [|unfold bind, sendBundle, throw; cbn [snd]; rewrite Hseq; exact Hnone].
  rewrite bind_observed by (intro reply; frame_lists).
  rewrite sendBundle_run. cbn [snd]. destruct s1 as [a1 l1 tr1].
  cbn [this locals trace] in *. rewrite sent_snoc. cbn [is_send].
  rewrite Hseq. apply Hone.
  unfold consistent_bundle.
  split; [eapply getRandomJitoUrl_in; eassumption|].
  split; [assumption|]. split; [reflexivity|].
  split; [repeat constructor; assumption|].
  split; [assumption|].
  rewrite Hrec. cbn [map]. now rewrite S0.
Qed.

Lemma volume_iteration_sent w mint lo hi m speed dexes tip (c : Ctx VolumeLocals)
    (Q : list Event -> Prop) :
  let c' := snd (volume_iteration w mint lo hi m speed dexes tip c) in
  Q (sent c) ->
  (forall e, consistent_bundle (blockhash (this c')) 1 e -> Q (sent c ++ [e])%list) ->
  Q (sent c').
Proof.
  intros c' Hnone Hone.
  assert (Hthis : this c' = this (snd (volume_refresh w c))).
  { unfold c', volume_iteration.
    rewrite try_catch_observed by (intro e; frame).
    apply bind_observed. intros _.
    apply preserves_bind; [apply decideTrade_keeps_this|]. intro trade.
    apply preserves_bind; [apply volume_bundle_keeps_this|]. intros _. frame. }
  revert Hone. rewrite Hthis. clear Hthis. intro Hone.
  unfold c', volume_iteration.
  rewrite try_catch_observed by (intro e; frame_lists).
  assert (Href : sent (snd (volume_refresh w c)) = sent c)
    by (generalize c; change (preserves (@sent VolumeLocals) (volume_refresh w));
        frame_lists).
  unfold bind at 1.
  destruct (volume_refresh w c) as [[[]|e] s1]; cbn [snd] in *;
    [|rewrite Href; exact Hnone].
  unfold bind at 1. rewrite decideTrade_run.
  rewrite bind_observed by (intros _; frame_lists).
  match goal with
  | |- context [volume_bundle _ _ _ _ _ _ ?s2] =>
      assert (Hs2 : sent s2 = sent c) by exact Href;
      change (this s1) with (this s2) in Hone; generalize dependent s2
  end.
  intros s2 Hone Hs2.
  apply volume_bundle_sent; rewrite Hs2; assumption.
Qed.

Lemma swap_sent w mint direction amount options (c : Ctx unit)
    (Q : list Event -> Prop) :
  let c' := snd (swap w mint direction amount options c) in
  Q (sent c) ->
  (forall e, consistent_bundle (blockhash (this c')) 1 e -> Q (sent c ++ [e])%list) ->
  Q (sent c').
Proof.
  intros c'. unfold c', swap. cbv zeta.
  step (eq_refl : fst (get c) = Ok c). cbn [get snd].
  set (init := if String.eqb (blockhash (this c)) ""
               then initializeBlockhash (L:=unit) w else ret tt).
  assert (Hinit : preserves (@sent unit) init)
    by (unfold init; destruct (String.eqb (blockhash (this c)) ""); frame_lists).
  specialize (Hinit c).
  set (attempt := try_catch
                    (swap_attempt w mint direction amount (tip_or options 1000000)
                       (dexes_of options))
                    (fun e => log (LogError "Error during swap:" e) ;; throw e)%js).
  assert (Hthis : forall s, this (snd (attempt s)) = this s).
  { apply (@preserves_try_catch _ _ (@this unit));
      [apply swap_attempt_keeps_this|intro e; frame]. }
  unfold bind.
  destruct (init c) as [[[]|e] s1]; cbn [snd] in *;
    [|intros Hnone _; rewrite Hinit; exact Hnone].
  rewrite Hthis. unfold attempt.
  rewrite try_catch_observed by (intro e; frame_lists).
  intros Hnone Hone.
  apply swap_attempt_sent; rewrite Hinit; assumption.
Qed.

(** X16. A pass of the volume loop and a call of [swap] submit at most
    one bundle each, and a submitted bundle is consistent: the funding
    transaction followed by one swap transaction, both on the cached
    (non-empty) blockhash, sent to a configured relay endpoint, the swap
    transaction signed by the one account the funding transaction
    funds. *)
Theorem single_swap_bundles_consistent :
  (forall w mint lo hi m speed dexes tip (c : Ctx VolumeLocals),
      let c' := snd (volume_iteration w mint lo hi m speed dexes tip c) in
      sent c' = sent c
      \/ exists e,
           sent c' = (sent c ++ [e])%list
           /\ consistent_bundle (blockhash (this c')) 1 e)
  /\
  (forall w mint direction amount options (c : Ctx unit),
      let c' := snd (swap w mint direction amount options c) in
      sent c' = sent c
      \/ exists e,
           sent c' = (sent c ++ [e])%list
           /\ consistent_bundle (blockhash (this c')) 1 e).
Proof.
  split.
  - intros w mint lo hi m speed dexes tip c c'.
    apply (@volume_iteration_sent w mint lo hi m speed dexes tip c
             (fun l => l = sent c
                       \/ exists e, l = (sent c ++ [e])%list
                                    /\ consistent_bundle (blockhash (this c')) 1 e)).
    + left. reflexivity.
    + intros e He. right. exists e. split; [reflexivity|exact He].
  - intros w mint direction amount options c c'.
    apply (@swap_sent w mint direction amount options c
             (fun l => l = sent c
                       \/ exists e, l = (sent c ++ [e])%list
                                    /\ consistent_bundle (blockhash (this c')) 1 e)).
    + left. reflexivity.
    + intros e He. right. exists e. split; [reflexivity|exact He].
Qed.

(** ** The one-shot swap *)

Lemma log_sent {L} line : preserves (@sent L) (log line).
Proof. frame_lists. Qed.

Lemma log_no_fetch {L} line : preserves (@count_events L is_fetch) (log line).
Proof. frame. Qed.

Lemma swap_attempt_no_fetch w mint d amt tip dexes :
  preserves (count_events is_fetch) (swap_attempt w mint d amt tip dexes).
Proof. unfold swap_attempt. frame. Qed.

Lemma bundle_result_inv reply id :
  bundle_result reply = Some id ->
  exists resp, reply = Some resp /\ result resp = Some id /\ id <> "".
Proof.
  destruct reply as [resp|]; [|discriminate]. cbn [bundle_result].
  destruct (truthy (result resp)) eqn:Ht; [|discriminate].
  intro H. exists resp. split; [reflexivity|]. split; [assumption|].
  rewrite H in Ht. cbn [truthy] in Ht. intros ->. discriminate.
Qed.

Lemma swap_attempt_ok_inv w mint d amt tip dexes (c : Ctx unit) :
  fst (swap_attempt w mint d amt tip dexes c) = Ok tt ->
  exists resp id e,
    relay_response w = Ok (Some resp) /\ result resp = Some id /\ id <> ""
    /\ sent (snd (swap_attempt w mint d amt tip dexes c)) = (sent c ++ [e])%list.
Proof.
  unfold swap_attempt. cbv zeta.
  assert (Hsw : forall dir am bh k dx,
             preserves (@sent unit) (swapVolume w dir mint am bh k dx))
    by (intros; frame_lists).
  unfold bind, get, lift. cbn [fst snd].
  destruct (createFundSingleTx (this c) (random_jitoAccount w) (fresh_keypair w 0)
              tip (blockhash (this c))) as [fundTx|e]; cbn [fst snd];
    [|discriminate].
  match goal with
  | |- context [swapVolume w ?dir mint ?am ?bh ?k ?dx c] =>
      pose proof (Hsw dir am bh k dx c) as Hseq;
      destruct (swapVolume w dir mint am bh k dx c) as [[swapTx|e] s1]
  end; cbn [fst snd] in *; [|discriminate].
  unfold sendBundle.
  destruct (getRandomJitoUrl (random_jitoUrl w)) as [u|]; cbn [fst snd];
    [|discriminate].
  unfold emit, modify, bind, lift. cbn [fst snd].
  destruct (relay_response w) as [reply|e]; cbn [fst snd]; [|discriminate].
  destruct (bundle_result reply) as [id|] eqn:Hres;
    [|destruct reply; cbn [fst snd]; discriminate].
  destruct (bundle_result_inv _ Hres) as [resp [-> [Hid Hne]]].
  intros _. exists resp, id, (SendBundle [fundTx; swapTx] u).
  split; [reflexivity|]. split; [assumption|]. split; [assumption|].
  rewrite log_sent. destruct s1 as [a1 l1 tr1]. cbn [this locals trace] in *.
  rewrite sent_snoc. cbn [is_send]. now rewrite Hseq.
Qed.

(** X13. [swap] asks the chain for a blockhash only when none is cached,
    and then exactly once. With a cached blockhash the object is left as
    it was. Without one, an answer of the chain is cached with the
    refresh time reset to zero; a failure of the chain is thrown as it
    is, before any quote, bundle or log line. *)
Theorem swap_fetches_blockhash_lazily :
  forall w mint direction amount options (c : Ctx unit),
    let c' := snd (swap w mint direction amount options c) in
    (blockhash (this c) <> "" ->
     count_events is_fetch c' = count_events is_fetch c /\ this c' = this c)
    /\
    (blockhash (this c) = "" ->
     count_events is_fetch c' = S (count_events is_fetch c)
     /\ (forall bh, rpc_latestBlockhash w = Ok bh ->
                    this c' = set_blockhash (this c) bh 0)
     /\ (forall e, rpc_latestBlockhash w = Throw e ->
                   fst (swap w mint direction amount options c) = Throw e
                   /\ trace c' = (trace c ++ [GetLatestBlockhash])%list
                   /\ this c' = this c)).
Proof.
  intros w mint direction amount options c c'. unfold c', swap. cbv zeta.
  step (eq_refl : fst (get c) = Ok c). cbn [get snd].
  set (attempt := try_catch
                    (swap_attempt w mint direction amount (tip_or options 1000000)
                       (dexes_of options))
                    (fun e => log (LogError "Error during swap:" e) ;; throw e)%js).
  assert (Hthis : preserves (@this unit) attempt).
  { apply preserves_try_catch; [apply swap_attempt_keeps_this|intro e; frame]. }
  assert (Hfetch : preserves (count_events is_fetch) attempt).
  { apply preserves_try_catch; [apply swap_attempt_no_fetch|intro e; frame]. }
  split; intro Hbh.
  - apply String.eqb_neq in Hbh. rewrite Hbh.
    step (eq_refl : fst (ret (S:=Ctx unit) tt c) = Ok tt). cbn [ret snd].
    split; [apply Hfetch|apply Hthis].
  - rewrite Hbh. cbn [String.eqb].
    unfold initializeBlockhash, getLatestBlockhash, emit, set_this, modify, lift.
    unfold bind. cbn [fst snd].
    destruct c as [a l tr]. cbn [this locals trace] in *.
    destruct (rpc_latestBlockhash w) as [bh|e]; cbn [fst snd].
    + rewrite Hfetch, Hthis. cbn [this]. unfold count_events. cbn [trace].
      rewrite filter_app, length_app. cbn.
      split; [lia|]. split; [intros bh' H; now apply Ok_inj in H; subst|].
      discriminate.
    + unfold count_events. cbn [trace this].
      rewrite filter_app, length_app. cbn.
      split; [lia|]. split; [discriminate|].
      intros e' H. injection H as <-. repeat split.
Qed.

Lemma swap_fetches_blockhash_lazily_witness :
  count_events is_fetch
    (snd (swap demo_world "mint" buy 0.5 no_options (demo_ctx demo_blockhash)))
  = 0%nat
  /\ count_events is_fetch
       (snd (swap demo_world "mint" buy 0.5 no_options (demo_ctx ""))) = 1%nat
  /\ this (snd (swap demo_world "mint" buy 0.5 no_options (demo_ctx "")))
     = demo_amm demo_blockhash.
Proof.
  destruct (@swap_fetches_blockhash_lazily demo_world "mint" buy 0.5 no_options
              (demo_ctx demo_blockhash)) as [Hcached _].
  destruct (@swap_fetches_blockhash_lazily demo_world "mint" buy 0.5 no_options
              (demo_ctx "")) as [_ Habsent].
  destruct Hcached as [H0 _]; [discriminate|].
  destruct Habsent as [H1 [Hset _]]; [reflexivity|].
  split; [exact H0|]. split; [exact H1|].
  exact (Hset demo_blockhash eq_refl).
Defined.

(** X14. [swap] returns normally only after the relay acknowledged its
    bundle: its reply carries a non-empty [result], and exactly one
    bundle was submitted. *)
Theorem swap_returns_only_when_acknowledged :
  forall w mint direction amount options (c : Ctx unit),
    fst (swap w mint direction amount options c) = Ok tt ->
    exists resp id e,
      relay_response w = Ok (Some resp) /\ result resp = Some id /\ id <> ""
      /\ sent (snd (swap w mint direction amount options c)) = (sent c ++ [e])%list.
Proof.
  intros w mint direction amount options c. unfold swap. cbv zeta.
  step (eq_refl : fst (get c) = Ok c). cbn [get snd].
  set (init := if String.eqb (blockhash (this c)) ""
               then initializeBlockhash (L:=unit) w else ret tt).
  assert (Hinit : preserves (@sent unit) init)
    by (unfold init; destruct (String.eqb (blockhash (this c)) ""); frame_lists).
  specialize (Hinit c).
  unfold bind.
  destruct (init c) as [[[]|e] s1]; cbn [fst snd] in *; [|discriminate].
  rewrite <- Hinit.
  generalize (@swap_attempt_ok_inv w mint direction amount
                (tip_or options 1000000) (dexes_of options) s1).
  unfold try_catch.
  destruct (swap_attempt w mint direction amount (tip_or options 1000000)
              (dexes_of options) s1) as [[[]|e] s2]; cbn [fst snd].
  - intros H _. apply H. reflexivity.
  - intros _. unfold bind, throw.
    destruct (log (LogError "Error during swap:" e) s2) as [[[]|e'] s3];
      discriminate.
Qed.

Lemma swap_returns_only_when_acknowledged_witness :
  exists resp id e,
    relay_response demo_world = Ok (Some resp) /\ result resp = Some id /\ id <> ""
    /\ sent (snd (swap demo_world "mint" buy 0.5 no_options (demo_ctx "")))
       = (sent (demo_ctx "") ++ [e])%list.
Proof.
  apply (@swap_returns_only_when_acknowledged demo_world "mint" buy 0.5
           no_options (demo_ctx "")).
  vm_compute. reflexivity.
Defined.

(** ** Address lookup tables *)




